(** * A FastAPI / Supabase session service with a WebSocket relay

    Shallow embedding of [src/app.py]:

    - the pydantic models [SessionMetadata] and [EventLog];
    - the dependency [get_supabase_client] and the four store-backed
      endpoints [create_session], [get_session], [create_event],
      [get_events_for_session];
    - the [ConnectionManager] class with [connect], [disconnect],
      [send_personal_message], [broadcast], and the [websocket_endpoint]
      coroutine that drives it.

    Python exceptions are values of [exn]; a computation is a function from
    the state of the process and its surroundings ([World]) to a [result]
    and the new state.  A raised exception keeps every mutation made before
    it, as in Python. *)

From stdpp Require Import base numbers list strings gmap sorting.

Local Open Scope Z_scope.
Local Open Scope string_scope.

(** ** Exceptions *)

(** An f-string [f"prefix{e}"] is kept structured: the literal prefix and
    the exception that is interpolated. *)
Inductive exn : Type :=
| HTTPException (status_code : Z) (detail : fstring)
| APIError (message : string)
| WebSocketDisconnect
| RuntimeError (message : string)
| ValueError
| TypeError
with fstring : Type :=
| Lit (s : string)
| Interp (prefix : string) (e : exn).

Definition HTTP_200_OK : Z := 200.
Definition HTTP_201_CREATED : Z := 201.
Definition HTTP_404_NOT_FOUND : Z := 404.
Definition HTTP_500_INTERNAL_SERVER_ERROR : Z := 500.

Inductive result (A : Type) : Type :=
| Return (a : A)
| Raise (e : exn).
Arguments Return {A} a.
Arguments Raise {A} e.

(** ** Data model *)

Record UUID := { uuid_text : string }.
Definition str (u : UUID) : string := uuid_text u.

(** [datetime] values, as microseconds since the epoch. *)
Definition datetime := Z.

Inductive Any : Type :=
| ANone
| AStr (s : string)
| AInt (z : Z)
| ABool (b : bool).

Record SessionMetadata := {
  sm_session_id : UUID;
  user_id : string;
  start_time : datetime;
  end_time : option datetime;
  summary : option string
}.

Record EventLog := {
  event_id : UUID;
  session_id : UUID;
  timestamp : datetime;
  event_type : string;
  event_data : Any
}.

(** A row of either table, as the store hands it back. *)
Inductive Row : Type :=
| SessionRow (s : SessionMetadata)
| EventRow (e : EventLog).

(** [response.data]: [None], one row (after [.single()]), or a list. *)
Inductive Data : Type :=
| DNone
| DObject (r : Row)
| DList (rs : list Row).

(** Python truthiness of [response.data]. *)
Definition truthy (d : Data) : bool :=
  match d with
  | DNone => false
  | DObject _ => true
  | DList [] => false
  | DList (_ :: _) => true
  end.

(** ** The store client: query builder *)

Inductive Operation : Type :=
| Select (columns : string)
| Insert (json : Row).

Record Query := {
  q_table : string;
  q_operation : Operation;
  q_eq : list (string * string);
  q_order : option (string * bool);   (* column, desc *)
  q_single : bool
}.

Definition select (table columns : string) : Query :=
  {| q_table := table; q_operation := Select columns; q_eq := [];
     q_order := None; q_single := false |}.

Definition insert (table : string) (json : Row) : Query :=
  {| q_table := table; q_operation := Insert json; q_eq := [];
     q_order := None; q_single := false |}.

Definition eq_ (column value : string) (q : Query) : Query :=
  {| q_table := q_table q; q_operation := q_operation q;
     q_eq := (q_eq q ++ [(column, value)])%list;
     q_order := q_order q; q_single := q_single q |}.

(** [.order(column)]: [desc] defaults to [False]. *)
Definition order (column : string) (q : Query) : Query :=
  {| q_table := q_table q; q_operation := q_operation q; q_eq := q_eq q;
     q_order := Some (column, false); q_single := q_single q |}.

Definition single (q : Query) : Query :=
  {| q_table := q_table q; q_operation := q_operation q; q_eq := q_eq q;
     q_order := q_order q; q_single := true |}.

(** The remote store is external: a client is what it answers. *)
Record AsyncClient := { respond : Query → result Data }.

(** ** The world *)

Record WebSocket := { conn_id : nat; path_client_id : string }.

Global Instance WebSocket_eq_dec : EqDecision WebSocket.
Proof. solve_decision. Defined.

(** How the remote end of a socket behaves: what [accept] and [send_text]
    raise on it, if anything. *)
Record Peer := { accept_raises : option exn; send_raises : option exn }.

Definition healthy : Peer := {| accept_raises := None; send_raises := None |}.

Record ConnectionManager := { active_connections : list WebSocket }.

Record World := {
  manager : ConnectionManager;               (* the module-level [manager] *)
  peers : WebSocket → Peer;
  wire : list (WebSocket * string);          (* frames delivered, oldest first *)
  store_requests : list Query                (* queries executed, oldest first *)
}.

Definition set_connections (l : list WebSocket) (w : World) : World :=
  {| manager := {| active_connections := l |}; peers := peers w;
     wire := wire w; store_requests := store_requests w |}.

Definition push_frame (ws : WebSocket) (msg : string) (w : World) : World :=
  {| manager := manager w; peers := peers w;
     wire := (wire w ++ [(ws, msg)])%list;
     store_requests := store_requests w |}.

Definition push_frames (fs : list (WebSocket * string)) (w : World) : World :=
  {| manager := manager w; peers := peers w;
     wire := (wire w ++ fs)%list;
     store_requests := store_requests w |}.

Definition push_request (q : Query) (w : World) : World :=
  {| manager := manager w; peers := peers w; wire := wire w;
     store_requests := (store_requests w ++ [q])%list |}.

Definition registry (w : World) : list WebSocket :=
  active_connections (manager w).

(** ** Computations *)

Definition IO (A : Type) : Type := World → result A * World.

Definition raise {A} (e : exn) : IO A := λ w, (Raise e, w).

Global Instance IO_ret : MRet IO := λ A a w, (Return a, w).
Global Instance IO_bind : MBind IO := λ A B k m w,
  match m w with
  | (Return a, w') => k a w'
  | (Raise e, w') => (Raise e, w')
  end.

Definition ret {A} (a : A) : IO A := mret a.

(** [try: body / except Exception as e: handler e].  Every constructor of
    [exn] is a subclass of [Exception]. *)
Definition try_except {A} (body : IO A) (handler : exn → IO A) : IO A :=
  λ w, match body w with
       | (Return a, w') => (Return a, w')
       | (Raise e, w') => handler e w'
       end.

(** [try: body / except WebSocketDisconnect: handler]. *)
Definition try_except_WebSocketDisconnect {A}
    (body : IO A) (handler : IO A) : IO A :=
  λ w, match body w with
       | (Return a, w') => (Return a, w')
       | (Raise WebSocketDisconnect, w') => handler w'
       | (Raise e, w') => (Raise e, w')
       end.

(** [await query.execute()] *)
Definition execute (supabase : AsyncClient) (q : Query) : IO Data :=
  λ w, (respond supabase q, push_request q w).

(** ** [get_supabase_client] *)

(** [not s] for the value of [os.getenv]. *)
Definition not_ (s : option string) : bool :=
  match s with
  | None => true
  | Some v => bool_decide (v = "")
  end.

Section endpoints.

(** [os.environ] after [load_dotenv()], and supabase's [create_client]. *)
Variable environ : gmap string string.
Variable create_client : string → string → result AsyncClient.

Definition getenv (name : string) : option string := environ !! name.

(** The dependency is a generator: [request] is what runs while it is
    suspended at [yield], and an exception raised there is raised again at
    the [yield], inside the [try]. *)
Definition get_supabase_client {A} (request : AsyncClient → IO A) : IO A :=
  let supabase_url := getenv "SUPABASE_URL" in
  let supabase_key := getenv "SUPABASE_KEY" in
  if not_ supabase_url || not_ supabase_key then
    raise (HTTPException HTTP_500_INTERNAL_SERVER_ERROR
             (Lit "Supabase credentials not found in environment variables."))
  else
    try_except
      (λ w, match create_client (default "" supabase_url)
                                (default "" supabase_key) with
            | Return supabase_client => request supabase_client w
            | Raise e => (Raise e, w)
            end)
      (λ e, raise (HTTPException HTTP_500_INTERNAL_SERVER_ERROR
                     (Interp "Failed to initialize Supabase client: " e))).

(** ** Store-backed endpoints *)

Definition database_error {A} (e : exn) : IO A :=
  raise (HTTPException HTTP_500_INTERNAL_SERVER_ERROR
           (Interp "Database error: " e)).

(** [response.data and isinstance(response.data, list) and
    len(response.data) > 0], then [response.data[0]]. *)
Definition first_row (d : Data) : option Row :=
  match d with
  | DList (r :: _) => Some r
  | _ => None
  end.

Definition create_session (session_data : SessionMetadata)
    (supabase : AsyncClient) : IO Data :=
  try_except
    (response ← execute supabase
                  (insert "session_metadata" (SessionRow session_data));
     match first_row response with
     | Some r => ret (DObject r)
     | None => raise (HTTPException HTTP_500_INTERNAL_SERVER_ERROR
                        (Lit "Failed to create session in Supabase."))
     end)
    database_error.

Definition get_session (session_id : UUID) (supabase : AsyncClient) : IO Data :=
  try_except
    (response ← execute supabase
                  (single (eq_ "session_id" (str session_id)
                             (select "session_metadata" "*")));
     if truthy response then ret response
     else raise (HTTPException HTTP_404_NOT_FOUND (Lit "Session not found")))
    database_error.

Definition create_event (event_data : EventLog)
    (supabase : AsyncClient) : IO Data :=
  try_except
    (response ← execute supabase
                  (insert "event_log" (EventRow event_data));
     match first_row response with
     | Some r => ret (DObject r)
     | None => raise (HTTPException HTTP_500_INTERNAL_SERVER_ERROR
                        (Lit "Failed to create event in Supabase."))
     end)
    database_error.

Definition get_events_for_session (session_id : UUID)
    (supabase : AsyncClient) : IO Data :=
  try_except
    (response ← execute supabase
                  (order "timestamp"
                     (eq_ "session_id" (str session_id)
                        (select "event_log" "*")));
     if truthy response then ret response
     else ret (DList []))
    database_error.

(** ** Routing of the HTTP surface *)

Inductive Request : Type :=
| POST_sessions (session_data : SessionMetadata)
| GET_sessions_id (session_id : UUID)
| POST_events (event_data : EventLog)
| GET_sessions_id_events (session_id : UUID).

(** Each route resolves [Depends(get_supabase_client)] and then calls its
    endpoint. *)
Definition api_router (r : Request) : IO Data :=
  get_supabase_client
    (match r with
     | POST_sessions session_data => create_session session_data
     | GET_sessions_id session_id => get_session session_id
     | POST_events event_data => create_event event_data
     | GET_sessions_id_events session_id => get_events_for_session session_id
     end).

(** The status code the decorator declares for a route. *)
Definition route_status (r : Request) : Z :=
  match r with
  | POST_sessions _ | POST_events _ => HTTP_201_CREATED
  | GET_sessions_id _ | GET_sessions_id_events _ => HTTP_200_OK
  end.

End endpoints.

(** The status line FastAPI sends: the route's code on return, the code of
    an [HTTPException], 500 for any other exception. *)
Definition response_status {A} (on_return : Z) (r : result A) : Z :=
  match r with
  | Return _ => on_return
  | Raise (HTTPException c _) => c
  | Raise _ => HTTP_500_INTERNAL_SERVER_ERROR
  end.

(** ** [ConnectionManager] *)

(** [list.remove(x)]: the list without the first element equal to [x];
    [None] when there is none ([ValueError]).  Sockets compare by
    identity. *)
Fixpoint list_remove (x : WebSocket) (l : list WebSocket)
    : option (list WebSocket) :=
  match l with
  | [] => None
  | y :: l' => if decide (x = y) then Some l' else (y ::.) <$> list_remove x l'
  end.

Definition accept (websocket : WebSocket) : IO unit :=
  λ w, match accept_raises (peers w websocket) with
       | Some e => (Raise e, w)
       | None => (Return (), w)
       end.

Definition send_text (websocket : WebSocket) (message : string) : IO unit :=
  λ w, match send_raises (peers w websocket) with
       | Some e => (Raise e, w)
       | None => (Return (), push_frame websocket message w)
       end.

(** [self.active_connections.append(websocket)] *)
Definition append (websocket : WebSocket) : IO unit :=
  λ w, (Return (), set_connections (registry w ++ [websocket]) w).

Definition connect (websocket : WebSocket) : IO unit :=
  accept websocket;; append websocket.

Definition disconnect (websocket : WebSocket) : IO unit :=
  λ w, match list_remove websocket (registry w) with
       | Some l => (Return (), set_connections l w)
       | None => (Raise ValueError, w)
       end.

Definition send_personal_message (message : string) (websocket : WebSocket)
    : IO unit :=
  send_text websocket message.

(** The [for] loop of [broadcast] when nothing else touches the list while
    it runs. *)
Fixpoint broadcast_loop (message : string) (connections : list WebSocket)
    : IO unit :=
  match connections with
  | [] => ret ()
  | connection :: rest =>
      send_text connection message;; broadcast_loop message rest
  end.

Definition broadcast (message : string) : IO unit :=
  λ w, broadcast_loop message (registry w) w.

(** ** [websocket_endpoint] *)

(** The body of the [while True] loop, once [receive_text] gave [data]. *)
Definition on_message (websocket : WebSocket) (client_id data : string)
    : IO unit :=
  send_personal_message ("You wrote: " +:+ data) websocket;;
  broadcast ("Client #" +:+ client_id +:+ " says: " +:+ data).

(** The [except WebSocketDisconnect] branch. *)
Definition on_disconnect (websocket : WebSocket) (client_id : string)
    : IO unit :=
  disconnect websocket;;
  broadcast ("Client #" +:+ client_id +:+ " left the chat").

(** [receive_text] yields the frames of [inbox] one by one and then raises
    [ending]. *)
Fixpoint receive_loop (websocket : WebSocket) (client_id : string)
    (inbox : list string) (ending : exn) : IO unit :=
  match inbox with
  | [] => raise ending
  | data :: rest =>
      on_message websocket client_id data;;
      receive_loop websocket client_id rest ending
  end.

Definition websocket_endpoint (websocket : WebSocket) (client_id : string)
    (inbox : list string) (ending : exn) : IO unit :=
  connect websocket;;
  try_except_WebSocketDisconnect
    (receive_loop websocket client_id inbox ending)
    (on_disconnect websocket client_id).

(** ** Sequences of joins and leaves *)

(** A handler joins with [manager.connect] and leaves through its [except]
    branch.  Each call belongs to its own handler, so an exception in one
    ends that handler only. *)
Inductive HubCall : Type :=
| Join (websocket : WebSocket)
| Leave (websocket : WebSocket).

Definition hub_call (c : HubCall) : IO unit :=
  match c with
  | Join websocket => connect websocket
  | Leave websocket => on_disconnect websocket (path_client_id websocket)
  end.

Definition run_calls (cs : list HubCall) (w : World) : World :=
  foldl (λ w c, (hub_call c w).2) w cs.

(** ** [broadcast] among other tasks *)

(** What other handlers do to the registry while a broadcast is suspended
    in [await connection.send_text(message)]. *)
Inductive Interference : Type :=
| OtherConnect (websocket : WebSocket)
| OtherDisconnect (websocket : WebSocket).

Definition interfere (w : World) (a : Interference) : World :=
  match a with
  | OtherConnect websocket => (connect websocket w).2
  | OtherDisconnect websocket => (disconnect websocket w).2
  end.

(** The list iterator of [for connection in self.active_connections] keeps
    a position [i] into the list object itself: each round reads element
    [i] of the list as it is then.  [schedule] gives, for each suspension
    in turn, what other tasks do during it; once it is used up nothing else
    runs. *)
Fixpoint broadcast_task (schedule : list (list Interference)) (i : nat)
    (message : string) (w : World) : result unit * World :=
  match registry w !! i with
  | None => (Return (), w)
  | Some connection =>
      match send_text connection message w with
      | (Raise e, w') => (Raise e, w')
      | (Return _, w') =>
          match schedule with
          | [] => broadcast_loop message (drop (S i) (registry w')) w'
          | during :: schedule' =>
              broadcast_task schedule' (S i) message (foldl interfere w' during)
          end
      end
  end.

(** ** The application *)

Inductive Call : Type :=
| Http (r : Request)
| Ws (websocket : WebSocket) (inbox : list string) (ending : exn).

Section application.

Variable environ : gmap string string.
Variable create_client : string → string → result AsyncClient.

(** What the FastAPI [app] does with a call: an HTTP request goes through
    the router, an upgrade to [/ws/{client_id}] runs the relay with the
    client identifier of the path. *)
Definition serve (c : Call) : IO (option Data) :=
  match c with
  | Http r => d ← api_router environ create_client r; mret (Some d)
  | Ws websocket inbox ending =>
      websocket_endpoint websocket (path_client_id websocket) inbox ending;;
      mret None
  end.

End application.

(** ** An in-memory store *)

(** A store that keeps both tables in memory and answers queries the way
    the remote one is documented to: equality filters, ordering by a column,
    [single] expecting exactly one row, inserts answered with the row. *)
Record Database := {
  session_metadata : list SessionMetadata;
  event_log : list EventLog
}.

Definition ts_le (a b : EventLog) : Prop := (timestamp a ≤ timestamp b)%Z.

Global Instance ts_le_dec a b : Decision (ts_le a b).
Proof. unfold ts_le. apply _. Defined.

Global Instance ts_le_total : Total ts_le.
Proof. intros a b. unfold ts_le. lia. Qed.

Definition event_column (column : string) (e : EventLog) : option string :=
  if decide (column = "event_id") then Some (str (event_id e))
  else if decide (column = "session_id") then Some (str (session_id e))
  else if decide (column = "event_type") then Some (event_type e)
  else None.

Definition session_column (column : string) (s : SessionMetadata)
    : option string :=
  if decide (column = "session_id") then Some (str (sm_session_id s))
  else if decide (column = "user_id") then Some (user_id s)
  else None.

Definition selected {R} (column_of : string → R → option string)
    (filters : list (string * string)) (r : R) : Prop :=
  Forall (λ f, column_of f.1 r = Some f.2) filters.

Global Instance selected_dec {R} column_of filters (r : R) :
  Decision (selected column_of filters r).
Proof. unfold selected. apply _. Defined.

Definition answer (q : Query) (rs : list Row) : result Data :=
  if q_single q then
    match rs with
    | [r] => Return (DObject r)
    | _ => Raise (APIError "PGRST116")
    end
  else Return (DList rs).

Definition in_memory (db : Database) : AsyncClient :=
  {| respond q :=
       match q_operation q with
       | Insert r => Return (DList [r])
       | Select _ =>
           if decide (q_table q = "event_log") then
             let evs := filter (selected event_column (q_eq q)) (event_log db) in
             let evs :=
               if decide (q_order q = Some ("timestamp", false))
               then merge_sort ts_le evs else evs in
             answer q (EventRow <$> evs)
           else if decide (q_table q = "session_metadata") then
             answer q (SessionRow <$>
                         filter (selected session_column (q_eq q))
                                (session_metadata db))
           else Raise (APIError "PGRST205")
       end |}.

(** * Notions used in the statements *)

Definition session_query (session_id : UUID) : Query :=
  single (eq_ "session_id" (str session_id) (select "session_metadata" "*")).

Definition events_query (session_id : UUID) : Query :=
  order "timestamp" (eq_ "session_id" (str session_id) (select "event_log" "*")).

(** The store is asked for the rows in ascending order of [timestamp]; a
    client honours that when every such selection from [event_log] comes
    back as a list of events in that order. *)
Definition orders_by_timestamp (supabase : AsyncClient) : Prop :=
  ∀ q columns d,
    q_table q = "event_log" →
    q_operation q = Select columns →
    q_order q = Some ("timestamp", false) →
    q_single q = false →
    respond supabase q = Return d →
    ∃ evs, d = DList (EventRow <$> evs) ∧ Sorted ts_le evs.

Global Instance WebSocket_countable : Countable WebSocket.
Proof.
  apply (inj_countable' (λ ws, (conn_id ws, path_client_id ws))
                        (λ p, {| conn_id := p.1; path_client_id := p.2 |})).
  by intros [].
Defined.

(** Sends to every socket of [l] go through in world [w]. *)
Definition writable (w : World) (l : list WebSocket) : Prop :=
  ∀ c, c ∈ l → send_raises (peers w c) = None.

Definition frames (message : string) (l : list WebSocket)
    : list (WebSocket * string) :=
  (λ c, (c, message)) <$> l.

Definition joins (cs : list HubCall) : list WebSocket :=
  omap (λ c, match c with Join ws => Some ws | Leave _ => None end) cs.

Definition handshake_ok (p : Peer) : bool :=
  match accept_raises p with
  | None => true
  | Some _ => false
  end.

(** The connections that joined and have not left since, following the
    calls one by one from the set [live]; a join counts once its handshake
    went through. *)
Fixpoint joined_not_left (peer : WebSocket → Peer) (cs : list HubCall)
    (live : gset WebSocket) : gset WebSocket :=
  match cs with
  | [] => live
  | Join ws :: cs' =>
      joined_not_left peer cs'
        (if handshake_ok (peer ws) then live ∪ {[ws]} else live)
  | Leave ws :: cs' => joined_not_left peer cs' (live ∖ {[ws]})
  end.

(** The frames one inbound message puts on the wire. *)
Definition exchange (websocket : WebSocket) (client_id : string)
    (connections : list WebSocket) (data : string)
    : list (WebSocket * string) :=
  (websocket, "You wrote: " +:+ data)
    :: frames ("Client #" +:+ client_id +:+ " says: " +:+ data) connections.

(** The endpoint behind each route, and the one query it sends. *)
Definition route_endpoint (r : Request) : AsyncClient → IO Data :=
  match r with
  | POST_sessions session_data => create_session session_data
  | GET_sessions_id session_id => get_session session_id
  | POST_events event_data => create_event event_data
  | GET_sessions_id_events session_id => get_events_for_session session_id
  end.

Definition route_query (r : Request) : Query :=
  match r with
  | POST_sessions session_data =>
      insert "session_metadata" (SessionRow session_data)
  | GET_sessions_id session_id => session_query session_id
  | POST_events event_data => insert "event_log" (EventRow event_data)
  | GET_sessions_id_events session_id => events_query session_id
  end.

(** [w'] differs from [w] by frames added to the wire and by the registry
    at most: same peers, same requests to the store. *)
Definition relayed (w w' : World) : Prop :=
  peers w' = peers w
  ∧ store_requests w' = store_requests w
  ∧ ∃ fs, wire w' = (wire w ++ fs)%list.

Definition relays {A} (m : IO A) : Prop := ∀ w, relayed w (m w).2.

(** The client that line 42 builds.  [create_client], as line 25 imports
    it from [supabase], is the library's synchronous factory, whatever the
    annotation [AsyncClient] says: [execute()] on one of its queries sends
    the request and hands back the response itself, or raises the store's
    error.  A response is no awaitable, so the [await] that the endpoints
    apply to it raises [TypeError].  [store] is what the remote store
    answers to a query. *)
Definition synchronous (store : Query → result Data) : AsyncClient :=
  {| respond q :=
       match store q with
       | Return _ => Raise TypeError
       | Raise e => Raise e
       end |}.

(** The exception an endpoint raises itself, inside its own [try], when
    the store has answered but not with what the endpoint needs;
    [get_events_for_session] has none. *)
Definition own_exception (r : Request) : option exn :=
  match r with
  | POST_sessions _ =>
      Some (HTTPException HTTP_500_INTERNAL_SERVER_ERROR
              (Lit "Failed to create session in Supabase."))
  | GET_sessions_id _ =>
      Some (HTTPException HTTP_404_NOT_FOUND (Lit "Session not found"))
  | POST_events _ =>
      Some (HTTPException HTTP_500_INTERNAL_SERVER_ERROR
              (Lit "Failed to create event in Supabase."))
  | GET_sessions_id_events _ => None
  end.

(** * Sample data *)

Definition empty_db : Database := {| session_metadata := []; event_log := [] |}.

Definition no_data : AsyncClient := {| respond _ := Return DNone |}.

Definition idle (l : list WebSocket) : World :=
  {| manager := {| active_connections := l |}; peers := λ _, healthy;
     wire := []; store_requests := [] |}.

Definition event (id session : string) (t : datetime) (data : string)
    : EventLog :=
  {| event_id := {| uuid_text := id |};
     session_id := {| uuid_text := session |};
     timestamp := t; event_type := "message"; event_data := AStr data |}.

Definition sample_db : Database :=
  {| session_metadata := [];
     event_log := [event "e1" "s1" 30 "c"; event "e2" "s2" 5 "x";
                   event "e3" "s1" 10 "a"; event "e4" "s1" 20 "b"] |}.

Definition client_X : WebSocket := {| conn_id := 1; path_client_id := "X" |}.
Definition client_Y : WebSocket := {| conn_id := 2; path_client_id := "Y" |}.
Definition client_Z : WebSocket := {| conn_id := 3; path_client_id := "Z" |}.
(** A second socket opened under the identifier of [client_X]. *)
Definition client_X' : WebSocket := {| conn_id := 4; path_client_id := "X" |}.

(** A peer whose channel no longer takes writes. *)
Definition gone (e : exn) : Peer :=
  {| accept_raises := None; send_raises := Some e |}.

Definition with_peer (ws : WebSocket) (p : Peer) (w : World) : World :=
  {| manager := manager w;
     peers := λ c, if decide (c = ws) then p else peers w c;
     wire := wire w; store_requests := store_requests w |}.

Definition closed_socket : exn :=
  RuntimeError "Cannot call send once a close message has been sent.".

Definition sample_calls : list HubCall :=
  [Join client_X; Join client_Y; Leave client_X; Join client_Z;
   Leave client_X].

Definition configured : gmap string string :=
  {[ "SUPABASE_URL" := "https://example.supabase.co";
     "SUPABASE_KEY" := "secret" ]}.

Definition sample_session : SessionMetadata :=
  {| sm_session_id := {| uuid_text := "s1" |}; user_id := "u1";
     start_time := 0; end_time := None; summary := None |}.

Definition refusing : Peer :=
  {| accept_raises := Some WebSocketDisconnect; send_raises := None |}.

Definition left_the_chat (client_id : string) : string :=
  "Client #" +:+ client_id +:+ " left the chat".

Definition session_A : UUID :=
  {| uuid_text := "6f1c1a52-3b1e-4c8e-9a57-2d7b0c9e4a11" |}.

Definition session_B : UUID :=
  {| uuid_text := "0b9d2f7e-58c4-4e0a-b1d3-7a6c5e4f3d22" |}.

(** Three events recorded for [session_A], none for [session_B]. *)
Definition recorded_db : Database :=
  {| session_metadata := [];
     event_log :=
       [event "a3c1e0d4-1111-4a6b-8c2d-000000000001"
              "6f1c1a52-3b1e-4c8e-9a57-2d7b0c9e4a11" 30 "c";
        event "a3c1e0d4-1111-4a6b-8c2d-000000000002"
              "6f1c1a52-3b1e-4c8e-9a57-2d7b0c9e4a11" 10 "a";
        event "a3c1e0d4-1111-4a6b-8c2d-000000000003"
              "6f1c1a52-3b1e-4c8e-9a57-2d7b0c9e4a11" 20 "b"] |}.

(** * Properties of the store-backed endpoints *)

Lemma get_session_unfold session_id supabase w :
  get_session session_id supabase w =
  match respond supabase (session_query session_id) with
  | Return d =>
      if truthy d then (Return d, push_request (session_query session_id) w)
      else (Raise (HTTPException HTTP_500_INTERNAL_SERVER_ERROR
                     (Interp "Database error: "
                        (HTTPException HTTP_404_NOT_FOUND
                           (Lit "Session not found")))),
            push_request (session_query session_id) w)
  | Raise e =>
      (Raise (HTTPException HTTP_500_INTERNAL_SERVER_ERROR
                (Interp "Database error: " e)),
       push_request (session_query session_id) w)
  end.
Proof.
  unfold get_session, try_except, execute, mbind, IO_bind.
  fold (session_query session_id).
  destruct (respond supabase (session_query session_id)) as [d|e]; [|done].
  by destruct (truthy d).
Qed.

Lemma get_events_for_session_unfold session_id supabase w :
  get_events_for_session session_id supabase w =
  (match respond supabase (events_query session_id) with
   | Return d => if truthy d then Return d else Return (DList [])
   | Raise e => Raise (HTTPException HTTP_500_INTERNAL_SERVER_ERROR
                         (Interp "Database error: " e))
   end, push_request (events_query session_id) w).
Proof.
  unfold get_events_for_session, try_except, execute, mbind, IO_bind.
  fold (events_query session_id).
  destruct (respond supabase (events_query session_id)) as [d|e]; [|done].
  by destruct (truthy d).
Qed.

(** A lookup never answers 404: the [HTTPException] raised for a miss is
    raised inside the [try] and caught by its own [except Exception]. *)
Lemma get_session_never_404 session_id supabase w :
  response_status HTTP_200_OK (get_session session_id supabase w).1
  ≠ HTTP_404_NOT_FOUND.
Proof.
  rewrite get_session_unfold.
  destruct (respond supabase (session_query session_id)) as [d|e];
    [destruct (truthy d)|]; simpl; unfold HTTP_200_OK, HTTP_404_NOT_FOUND,
    HTTP_500_INTERNAL_SERVER_ERROR; lia.
Qed.

(** C4 (as the code behaves): when the store has no row for the id (its
    answer carries no data), [get_session] raises the 404 inside its own
    [try], the [except Exception] clause catches it, and the request ends
    with status 500 and a "Database error" detail wrapping the 404. *)
Theorem get_session_miss_is_500 session_id supabase w d :
  respond supabase (session_query session_id) = Return d →
  truthy d = false →
  (get_session session_id supabase w).1 =
    Raise (HTTPException 500
             (Interp "Database error: "
                (HTTPException 404 (Lit "Session not found"))))
  ∧ response_status HTTP_200_OK (get_session session_id supabase w).1 = 500.
Proof.
  intros Hd Ht. rewrite get_session_unfold, Hd, Ht. done.
Qed.

Lemma get_session_miss_is_500_witness :
  (get_session {| uuid_text := "0000" |} no_data (idle [])).1 =
    Raise (HTTPException 500
             (Interp "Database error: "
                (HTTPException 404 (Lit "Session not found"))))
  ∧ response_status HTTP_200_OK
      (get_session {| uuid_text := "0000" |} no_data (idle [])).1 = 500.
Proof.
  apply (get_session_miss_is_500 _ no_data (idle []) DNone); reflexivity.
Defined.

(** With the real [single()], a miss is an [APIError] of the store; the
    outcome is 500 as well. *)
Example get_session_in_memory_miss :
  (get_session {| uuid_text := "0000" |} (in_memory empty_db) (idle [])).1 =
  Raise (HTTPException 500 (Interp "Database error: " (APIError "PGRST116"))).
Proof. reflexivity. Qed.

Lemma in_memory_orders_by_timestamp db : orders_by_timestamp (in_memory db).
Proof.
  intros q columns d Htable Hop Horder Hsingle. simpl.
  rewrite Hop. rewrite decide_True by done. rewrite decide_True by done.
  unfold answer. rewrite Hsingle. intros [= <-].
  eexists. split; [reflexivity|]. apply (Sorted_merge_sort ts_le).
Qed.

(** What the in-memory store hands to [get_events_for_session]: the events
    of the session, each once, in ascending order of [timestamp]. *)
Lemma in_memory_events sid db :
  ∃ evs,
    respond (in_memory db) (events_query sid)
      = Return (DList (EventRow <$> evs))
    ∧ Sorted ts_le evs
    ∧ evs ≡ₚ filter (λ e, str (session_id e) = str sid)
               (event_log db).
Proof.
  exists (merge_sort ts_le
            (filter (selected event_column [("session_id", str sid)])
                    (event_log db))).
  split; [reflexivity|]. split.
  - apply (Sorted_merge_sort ts_le).
  - rewrite merge_sort_Permutation.
    erewrite list_filter_iff; [reflexivity|]. intros e. unfold selected. simpl.
    rewrite Forall_singleton. simpl. unfold event_column. simpl.
    split; congruence.
Qed.

(** With a client whose awaited [execute] answers: the endpoint sends the
    ordered query and hands back the rows of the answer as they are, so
    with a store that honours the ordering they are sorted non-decreasing
    by timestamp. *)
Lemma get_events_for_session_sorted session_id supabase w d :
  orders_by_timestamp supabase →
  respond supabase (events_query session_id) = Return d →
  store_requests (get_events_for_session session_id supabase w).2
    = (store_requests w
         ++ [order "timestamp"
               (eq_ "session_id" (str session_id) (select "event_log" "*"))])%list
  ∧ (get_events_for_session session_id supabase w).1 = Return d
  ∧ ∃ evs, d = DList (EventRow <$> evs) ∧ Sorted ts_le evs.
Proof.
  intros Hstore Hq. rewrite get_events_for_session_unfold. split; [done|].
  simpl. rewrite Hq.
  destruct (Hstore (events_query session_id) "*" d
              eq_refl eq_refl eq_refl eq_refl Hq) as (evs & -> & Hsorted).
  split; [|by exists evs]. by destruct evs.
Qed.

Lemma get_events_for_session_sorted_witness :
  (get_events_for_session {| uuid_text := "s1" |} (in_memory sample_db)
     (idle [])).1
  = Return (DList [EventRow (event "e3" "s1" 10 "a");
                   EventRow (event "e4" "s1" 20 "b");
                   EventRow (event "e1" "s1" 30 "c")]).
Proof.
  apply (get_events_for_session_sorted {| uuid_text := "s1" |}
           (in_memory sample_db) (idle []) _
           (in_memory_orders_by_timestamp sample_db)).
  vm_compute. reflexivity.
Defined.

(** With a client whose awaited [execute] answers: when that answer
    carries no rows, [get_events_for_session] returns the empty list, and
    a route that returns answers 200. *)
Lemma get_events_for_session_none session_id supabase w d :
  respond supabase (events_query session_id) = Return d →
  truthy d = false →
  (get_events_for_session session_id supabase w).1 = Return (DList [])
  ∧ response_status HTTP_200_OK
      (get_events_for_session session_id supabase w).1 = 200.
Proof.
  intros Hd Ht. rewrite get_events_for_session_unfold. simpl.
  by rewrite Hd, Ht.
Qed.

Lemma get_events_for_session_none_witness :
  (get_events_for_session {| uuid_text := "s9" |} (in_memory sample_db)
     (idle [])).1 = Return (DList [])
  ∧ response_status HTTP_200_OK
      (get_events_for_session {| uuid_text := "s9" |} (in_memory sample_db)
         (idle [])).1 = 200.
Proof.
  apply (get_events_for_session_none _ (in_memory sample_db) (idle [])
           (DList [])); reflexivity.
Defined.

(** * Properties of the connection manager *)

Lemma push_frames_nil w : push_frames [] w = w.
Proof. destruct w. unfold push_frames. simpl. by rewrite app_nil_r. Qed.

Lemma push_frames_cons ws msg fs w :
  push_frames fs (push_frame ws msg w) = push_frames ((ws, msg) :: fs) w.
Proof. unfold push_frames, push_frame. simpl. by rewrite <- app_assoc. Qed.

Lemma push_frames_app fs gs w :
  push_frames gs (push_frames fs w) = push_frames (fs ++ gs) w.
Proof. unfold push_frames. simpl. by rewrite app_assoc. Qed.

Lemma send_text_ok ws msg w :
  send_raises (peers w ws) = None →
  send_text ws msg w = (Return (), push_frame ws msg w).
Proof. intros H. unfold send_text. by rewrite H. Qed.

Lemma send_text_fail ws msg w e :
  send_raises (peers w ws) = Some e →
  send_text ws msg w = (Raise e, w).
Proof. intros H. unfold send_text. by rewrite H. Qed.

Lemma broadcast_loop_cons msg c l w :
  broadcast_loop msg (c :: l) w =
  match send_text c msg w with
  | (Return _, w') => broadcast_loop msg l w'
  | (Raise e, w') => (Raise e, w')
  end.
Proof. reflexivity. Qed.

(** When every send goes through, the loop writes one frame per
    connection, in list order. *)
Lemma broadcast_loop_ok msg l : ∀ w,
  writable w l →
  broadcast_loop msg l w = (Return (), push_frames (frames msg l) w).
Proof.
  induction l as [|c l IH]; intros w Hw.
  - simpl. by rewrite push_frames_nil.
  - rewrite broadcast_loop_cons, send_text_ok by (apply Hw; left).
    rewrite IH.
    + simpl. by rewrite push_frames_cons.
    + intros c' Hc'. simpl. apply Hw. by right.
Qed.

(** The first send that raises ends the loop: the connections before it
    have their frame, the exception goes to the caller. *)
Lemma broadcast_loop_fail msg l1 c l2 e : ∀ w,
  writable w l1 →
  send_raises (peers w c) = Some e →
  broadcast_loop msg (l1 ++ c :: l2) w
  = (Raise e, push_frames (frames msg l1) w).
Proof.
  induction l1 as [|c1 l1 IH]; intros w Hw He.
  - cbn [app]. rewrite broadcast_loop_cons, (send_text_fail _ _ _ e) by done.
    by rewrite push_frames_nil.
  - cbn [app]. rewrite broadcast_loop_cons, send_text_ok by (apply Hw; left).
    rewrite IH.
    + simpl. by rewrite push_frames_cons.
    + intros c' Hc'. simpl. apply Hw. by right.
    + done.
Qed.

(** Sending never touches the registry, the peers or the store. *)
Lemma broadcast_loop_frame msg l : ∀ w,
  manager (broadcast_loop msg l w).2 = manager w
  ∧ peers (broadcast_loop msg l w).2 = peers w
  ∧ store_requests (broadcast_loop msg l w).2 = store_requests w.
Proof.
  induction l as [|c l IH]; intros w; [done|].
  rewrite broadcast_loop_cons. unfold send_text.
  destruct (send_raises (peers w c)); [done|].
  destruct (IH (push_frame c msg w)) as (-> & -> & ->). done.
Qed.

Lemma broadcast_ok msg w :
  writable w (registry w) →
  broadcast msg w = (Return (), push_frames (frames msg (registry w)) w).
Proof. apply broadcast_loop_ok. Qed.

Lemma list_remove_elem_of x l :
  x ∈ l → ∃ l', list_remove x l = Some l'.
Proof.
  induction l as [|y l IH]; intros Hx; [by apply elem_of_nil in Hx|].
  simpl. destruct (decide (x = y)) as [->|Hne]; [by eexists|].
  apply elem_of_cons in Hx as [?|Hx]; [done|].
  destruct (IH Hx) as [l' ->]. by eexists.
Qed.


(** On a list without repetition, [remove] leaves exactly the other
    elements. *)
Lemma list_remove_NoDup x l l' :
  NoDup l → list_remove x l = Some l' →
  NoDup l' ∧ ∀ y, y ∈ l' ↔ y ∈ l ∧ y ≠ x.
Proof.
  revert l'. induction l as [|z l IH]; intros l' Hnd Hrm; [done|].
  apply NoDup_cons in Hnd as [Hz Hnd]. simpl in Hrm.
  destruct (decide (x = z)) as [->|Hne].
  - injection Hrm as <-. split; [done|]. intros y. rewrite elem_of_cons.
    split; [|by intros [[->|?] ?]]. intros Hy. split; [by right|]. by intros ->.
  - destruct (list_remove x l) as [l0|] eqn:Hl0; [|done].
    injection Hrm as <-. destruct (IH l0 Hnd eq_refl) as [Hnd0 Hin0].
    split.
    + apply NoDup_cons. split; [|done]. rewrite Hin0. by intros [? _].
    + intros y. rewrite !elem_of_cons, Hin0. intuition congruence.
Qed.

(** ** One inbound message *)

Lemma on_message_ok websocket client_id data w :
  send_raises (peers w websocket) = None →
  writable w (registry w) →
  on_message websocket client_id data w =
  (Return (),
   push_frames
     ((websocket, "You wrote: " +:+ data)
        :: frames ("Client #" +:+ client_id +:+ " says: " +:+ data)
             (registry w)) w).
Proof.
  intros Hws Hw.
  unfold on_message, send_personal_message, mbind, IO_bind.
  rewrite send_text_ok by done.
  rewrite broadcast_ok by done. simpl. by rewrite push_frames_cons.
Qed.




(** C2 (as the code behaves): [broadcast] sends in list order and has no
    handler around a send.  The first send that raises ends the broadcast:
    the connections before it have received the message, the failing one
    and all after it receive nothing, the exception reaches the caller of
    [broadcast], and the failing connection stays in the registry. *)
Theorem broadcast_stops_at_first_failure message l1 c l2 e w :
  registry w = (l1 ++ c :: l2)%list →
  writable w l1 →
  send_raises (peers w c) = Some e →
  (broadcast message w).1 = Raise e
  ∧ wire (broadcast message w).2 = (wire w ++ frames message l1)%list
  ∧ registry (broadcast message w).2 = (l1 ++ c :: l2)%list.
Proof.
  intros Hreg Hw He. unfold broadcast. rewrite Hreg.
  rewrite (broadcast_loop_fail _ _ _ _ e) by done. simpl.
  by rewrite <- Hreg.
Qed.

Lemma broadcast_stops_at_first_failure_witness :
  let w := with_peer client_Y (gone closed_socket)
             (idle [client_X; client_Y; client_Z]) in
  (broadcast "m" w).1 = Raise closed_socket
  ∧ wire (broadcast "m" w).2 = (wire w ++ frames "m" [client_X])%list
  ∧ registry (broadcast "m" w).2
    = ([client_X] ++ client_Y :: [client_Z])%list.
Proof.
  intros w.
  apply (broadcast_stops_at_first_failure "m" [client_X] client_Y [client_Z]
           closed_socket w).
  - reflexivity.
  - intros c Hc. apply list_elem_of_singleton in Hc as ->. reflexivity.
  - reflexivity.
Defined.

(** C2, refuted as stated: the send to X fails, and neither Y nor Z gets
    the message; the error comes out of [broadcast] and X is still
    registered. *)
Lemma broadcast_failure_not_isolated :
  let w := with_peer client_X (gone closed_socket)
             (idle [client_X; client_Y; client_Z]) in
  (broadcast "m" w).1 = Raise closed_socket
  ∧ wire (broadcast "m" w).2 = []
  ∧ registry (broadcast "m" w).2 = [client_X; client_Y; client_Z].
Proof. repeat split. Qed.

(** C6 (as the code behaves): an inbound message [data] from a joined
    client has two effects, in this order: the sender receives the echo
    "You wrote: data", then every registered connection, the sender
    included, receives "Client #id says: data" in registry order.  The
    relay records no event: it sends nothing to the store, and it leaves
    the registry as it was. *)
Theorem on_message_effects websocket client_id data w :
  send_raises (peers w websocket) = None →
  writable w (registry w) →
  (on_message websocket client_id data w).1 = Return ()
  ∧ wire (on_message websocket client_id data w).2
    = (wire w ++ (websocket, "You wrote: " +:+ data)
         :: frames ("Client #" +:+ client_id +:+ " says: " +:+ data)
              (registry w))%list
  ∧ store_requests (on_message websocket client_id data w).2
    = store_requests w
  ∧ registry (on_message websocket client_id data w).2 = registry w.
Proof.
  intros Hws Hw. by rewrite on_message_ok.
Qed.

Lemma on_message_effects_witness :
  (on_message client_X "X" "hi" (idle [client_Y; client_X])).1 = Return ()
  ∧ wire (on_message client_X "X" "hi" (idle [client_Y; client_X])).2
    = (wire (idle [client_Y; client_X])
         ++ (client_X, "You wrote: " +:+ "hi")
         :: frames ("Client #" +:+ "X" +:+ " says: " +:+ "hi")
              (registry (idle [client_Y; client_X])))%list
  ∧ store_requests (on_message client_X "X" "hi" (idle [client_Y; client_X])).2
    = store_requests (idle [client_Y; client_X])
  ∧ registry (on_message client_X "X" "hi" (idle [client_Y; client_X])).2
    = registry (idle [client_Y; client_X]).
Proof.
  apply (on_message_effects client_X "X" "hi" (idle [client_Y; client_X])).
  - reflexivity.
  - intros c _. reflexivity.
Defined.

(** C6, refuted as stated: Y is connected, X joins and sends "hi".  No
    request reaches the store, so no event is recorded; the text relayed is
    "Client #X says: hi", and X receives it too, not only the echo. *)
Lemma on_message_records_nothing :
  let w := (on_message client_X "X" "hi" (idle [client_Y; client_X])).2 in
  wire w = [(client_X, "You wrote: hi");
            (client_Y, "Client #X says: hi");
            (client_X, "Client #X says: hi")]
  ∧ store_requests w = []
  ∧ (client_Y, "Client X says: hi") ∉ wire w.
Proof.
  repeat split. simpl. intros H.
  repeat (apply elem_of_cons in H as [H|H]; [discriminate H|]).
  by apply elem_of_nil in H.
Qed.

(** ** Leaving *)



Lemma on_disconnect_ok websocket client_id w l :
  list_remove websocket (registry w) = Some l →
  writable w l →
  on_disconnect websocket client_id w =
  (Return (),
   push_frames (frames ("Client #" +:+ client_id +:+ " left the chat") l)
     (set_connections l w)).
Proof.
  intros Hl Hw. unfold on_disconnect, mbind, IO_bind, disconnect.
  rewrite Hl. by rewrite broadcast_ok.
Qed.




(** ** Sequences of joins and leaves *)

Lemma connect_unfold websocket w :
  connect websocket w =
  match accept_raises (peers w websocket) with
  | Some e => (Raise e, w)
  | None => (Return (), set_connections (registry w ++ [websocket]) w)
  end.
Proof.
  unfold connect, mbind, IO_bind, accept.
  by destruct (accept_raises (peers w websocket)).
Qed.

Lemma on_disconnect_unfold websocket client_id w :
  registry (on_disconnect websocket client_id w).2
    = default (registry w) (list_remove websocket (registry w))
  ∧ peers (on_disconnect websocket client_id w).2 = peers w.
Proof.
  unfold on_disconnect, mbind, IO_bind, disconnect.
  destruct (list_remove websocket (registry w)) as [l|]; [|done].
  unfold broadcast.
  destruct (broadcast_loop_frame
              ("Client #" +:+ client_id +:+ " left the chat")
              (registry (set_connections l w)) (set_connections l w))
    as (Hm & Hp & _).
  split; [unfold registry at 1; by rewrite Hm|by rewrite Hp].
Qed.

Lemma hub_call_registry c w :
  registry (hub_call c w).2 =
  match c with
  | Join ws =>
      if handshake_ok (peers w ws) then (registry w ++ [ws])%list
      else registry w
  | Leave ws => default (registry w) (list_remove ws (registry w))
  end.
Proof.
  destruct c as [ws|ws]; simpl.
  - rewrite connect_unfold. unfold handshake_ok.
    by destruct (accept_raises (peers w ws)).
  - apply on_disconnect_unfold.
Qed.

Lemma hub_call_peers c w : peers (hub_call c w).2 = peers w.
Proof.
  destruct c as [ws|ws]; simpl.
  - rewrite connect_unfold. by destruct (accept_raises (peers w ws)).
  - apply on_disconnect_unfold.
Qed.

(** The invariant behind C3, from any registry without repetition whose
    connections do not join again. *)
Lemma run_calls_invariant cs : ∀ w,
  NoDup (registry w) →
  NoDup (joins cs) →
  (∀ ws, ws ∈ joins cs → ws ∉ registry w) →
  NoDup (registry (run_calls cs w))
  ∧ list_to_set (registry (run_calls cs w))
    = joined_not_left (peers w) cs (list_to_set (registry w)).
Proof.
  induction cs as [|c cs IH]; intros w Hnd Hjoins Hfresh; [done|].
  unfold run_calls. cbn [foldl]. fold (run_calls cs (hub_call c w).2).
  pose proof (hub_call_registry c w) as Hreg.
  pose proof (hub_call_peers c w) as Hpeers.
  destruct c as [ws|ws]; cbn [joins omap] in Hjoins, Hfresh;
    fold (joins cs) in Hjoins, Hfresh.
  - apply NoDup_cons in Hjoins as [Hws Hjoins].
    assert (ws ∉ registry w) as Hnew by (apply Hfresh; left).
    destruct (IH (hub_call (Join ws) w).2) as [IH1 IH2].
    + rewrite Hreg. destruct (handshake_ok _); [|done].
      apply NoDup_app. split; [done|]. split; [|apply NoDup_singleton].
      intros x Hx Hx'. apply list_elem_of_singleton in Hx' as ->. done.
    + done.
    + intros x Hx. rewrite Hreg.
      assert (x ∉ registry w) by (apply Hfresh; by right).
      destruct (handshake_ok _); [|done].
      rewrite elem_of_app, list_elem_of_singleton.
      intros [?| ->]; done.
    + split; [done|]. rewrite IH2, Hpeers, Hreg. cbn [joined_not_left].
      f_equal. destruct (handshake_ok _); [|done].
      rewrite list_to_set_app_L. simpl. by rewrite union_empty_r_L.
  - destruct (IH (hub_call (Leave ws) w).2) as [IH1 IH2].
    + rewrite Hreg.
      destruct (list_remove ws (registry w)) as [l|] eqn:Hl; [|done].
      by destruct (list_remove_NoDup _ _ _ Hnd Hl).
    + done.
    + intros x Hx. rewrite Hreg.
      destruct (list_remove ws (registry w)) as [l|] eqn:Hl; simpl.
      * destruct (list_remove_NoDup _ _ _ Hnd Hl) as [_ Hmem].
        rewrite Hmem. intros [? _]. by apply (Hfresh x).
      * by apply Hfresh.
    + split; [done|]. rewrite IH2, Hpeers, Hreg. cbn [joined_not_left].
      f_equal.
      destruct (list_remove ws (registry w)) as [l|] eqn:Hl; simpl.
      * destruct (list_remove_NoDup _ _ _ Hnd Hl) as [_ Hmem].
        apply set_eq. intros x.
        rewrite elem_of_difference, !elem_of_list_to_set, Hmem.
        rewrite elem_of_singleton. done.
      * assert (ws ∉ registry w) as Hout.
        { intros Hin. apply list_remove_elem_of in Hin as [l' Hl'].
          congruence. }
        symmetry. apply difference_disjoint_L, disjoint_singleton_r.
        by rewrite elem_of_list_to_set.
Qed.

(** C3 (as the code behaves): start from an empty registry and let no
    connection object join twice.  After any sequence of joins and leaves
    the registry holds exactly the connections that joined and have not
    left since, each once.  Connections are registered as objects:
    [connect] does not look at the identifier; it fails only when the
    handshake does, and otherwise appends the connection, already
    registered or not. *)
Theorem registry_is_joined_not_left cs w :
  registry w = [] →
  NoDup (joins cs) →
  NoDup (registry (run_calls cs w))
  ∧ list_to_set (registry (run_calls cs w)) = joined_not_left (peers w) cs ∅
  ∧ ∀ ws w',
      connect ws w'
      = match accept_raises (peers w' ws) with
        | Some e => (Raise e, w')
        | None => (Return (), set_connections (registry w' ++ [ws]) w')
        end.
Proof.
  intros Hempty Hjoins.
  destruct (run_calls_invariant cs w) as [Hnd Hset].
  - rewrite Hempty. apply NoDup_nil_2.
  - done.
  - intros ws _. rewrite Hempty. apply not_elem_of_nil.
  - split; [done|]. split.
    + rewrite Hset, Hempty. done.
    + intros ws w'. apply connect_unfold.
Qed.

Lemma registry_is_joined_not_left_witness :
  NoDup (registry (run_calls sample_calls (idle [])))
  ∧ list_to_set (registry (run_calls sample_calls (idle [])))
    = joined_not_left (peers (idle [])) sample_calls ∅
  ∧ ∀ ws w',
      connect ws w'
      = match accept_raises (peers w' ws) with
        | Some e => (Raise e, w')
        | None => (Return (), set_connections (registry w' ++ [ws]) w')
        end.
Proof.
  apply (registry_is_joined_not_left sample_calls (idle [])).
  - reflexivity.
  - apply (bool_decide_unpack (NoDup (joins sample_calls))).
    vm_compute. exact I.
Defined.

Example run_sample_calls :
  registry (run_calls sample_calls (idle [])) = [client_Y; client_Z].
Proof. reflexivity. Qed.

(** C3, refuted as stated: a second socket joins under the identifier "X"
    while the first is still registered.  The join is not rejected, and the
    identifier is live twice.  Nor is a second [connect] of one and the
    same socket rejected: it is then listed twice, and one leave removes
    one entry only. *)
Lemma duplicate_identifier_accepted :
  let w := run_calls [Join client_X] (idle []) in
  (connect client_X' w).1 = Return ()
  ∧ registry (run_calls [Join client_X; Join client_X'] (idle []))
    = [client_X; client_X']
  ∧ path_client_id <$> registry (run_calls [Join client_X; Join client_X']
                                   (idle []))
    = ["X"; "X"]
  ∧ registry (run_calls [Join client_X; Join client_X; Leave client_X]
                (idle []))
    = [client_X].
Proof. repeat split. Qed.

(** ** [broadcast] while other handlers run *)

Lemma registry_set_connections l w : registry (set_connections l w) = l.
Proof. reflexivity. Qed.

Lemma registry_push_frame ws msg w : registry (push_frame ws msg w) = registry w.
Proof. reflexivity. Qed.

Lemma registry_push_frames fs w : registry (push_frames fs w) = registry w.
Proof. reflexivity. Qed.

Lemma broadcast_task_nil message i w :
  broadcast_task [] i message w
  = broadcast_loop message (drop i (registry w)) w.
Proof.
  cbn [broadcast_task].
  destruct (registry w !! i) as [c|] eqn:Hi.
  - rewrite (drop_S _ _ _ Hi), broadcast_loop_cons. unfold send_text.
    by destruct (send_raises (peers w c)).
  - by rewrite drop_ge by (by apply lookup_ge_None).
Qed.

(** Left alone, the task is the plain loop over the registry. *)
Lemma broadcast_task_alone message w :
  broadcast_task [] 0 message w = broadcast message w.
Proof. by rewrite broadcast_task_nil. Qed.

(** One round: the send goes through, then the other tasks run. *)
Lemma broadcast_task_step during schedule i message w c :
  registry w !! i = Some c →
  send_raises (peers w c) = None →
  broadcast_task (during :: schedule) i message w
  = broadcast_task schedule (S i) message
      (foldl interfere (push_frame c message w) during).
Proof.
  intros Hc Hsend. destruct schedule; cbn [broadcast_task];
    by rewrite Hc, send_text_ok.
Qed.

(** [k] rounds during which no other task touches the registry. *)
Lemma broadcast_task_quiet message schedule k : ∀ i w,
  writable w (registry w) →
  (i + k ≤ length (registry w))%nat →
  broadcast_task (replicate k [] ++ schedule) i message w
  = broadcast_task schedule (i + k) message
      (push_frames (frames message (take k (drop i (registry w)))) w).
Proof.
  induction k as [|k IH]; intros i w Hw Hlen.
  - cbn [replicate app take]. replace (i + 0)%nat with i by lia.
    unfold frames. cbn [fmap list_fmap]. by rewrite push_frames_nil.
  - destruct (lookup_lt_is_Some_2 (registry w) i) as [c Hc]; [lia|].
    cbn [replicate app].
    rewrite (broadcast_task_step _ _ _ _ _ c)
      by (done || apply Hw; by apply (list_elem_of_lookup_2 _ i)).
    cbn [foldl]. rewrite IH; [|done|unfold registry in *; simpl; lia].
    replace (S i + k)%nat with (i + S k)%nat by lia.
    rewrite (drop_S _ _ _ Hc). cbn [take]. unfold frames at 2.
    cbn [fmap list_fmap]. fold (frames message (take k (drop (S i) (registry w)))).
    by rewrite <- push_frames_cons.
Qed.

(** C7 (as the code behaves): [broadcast] loops over
    [self.active_connections] itself, by position, with no copy and no
    lock.  When nothing else runs during its sends it delivers to exactly
    the registered connections.  A connection that another handler appends
    while the broadcast is suspended in one of its sends is added to the
    very list being iterated, and receives the message of the broadcast in
    progress. *)
Theorem broadcast_iterates_live_list message ws k w :
  writable w (registry w) →
  accept_raises (peers w ws) = None →
  send_raises (peers w ws) = None →
  (k < length (registry w))%nat →
  broadcast_task [] 0 message w = broadcast message w
  ∧ (broadcast_task (replicate k [] ++ [[OtherConnect ws]]) 0 message w).1
    = Return ()
  ∧ wire (broadcast_task (replicate k [] ++ [[OtherConnect ws]]) 0 message w).2
    = (wire w ++ frames message (registry w ++ [ws]))%list.
Proof.
  intros Hw Hacc Hsend Hk. split; [apply broadcast_task_alone|].
  rewrite broadcast_task_quiet by (done || simpl; lia).
  cbn [plus drop].
  destruct (lookup_lt_is_Some_2 (registry w) k Hk) as [c Hc].
  rewrite (broadcast_task_step _ _ _ _ _ c)
    by (done || simpl; apply Hw; by apply (list_elem_of_lookup_2 _ k)).
  cbn [foldl interfere]. rewrite broadcast_task_nil, connect_unfold.
  simpl peers. rewrite Hacc. cbn [snd].
  rewrite registry_set_connections, registry_push_frame, registry_push_frames.
  rewrite drop_app_le by lia. cbn [drop].
  rewrite broadcast_loop_ok.
  - split; [done|]. simpl. rewrite <- !app_assoc. f_equal.
    unfold frames. simpl.
    rewrite <- (fmap_cons (λ c0, (c0, message))), <- fmap_app. f_equal.
    rewrite app_comm_cons, app_assoc. f_equal.
    apply take_drop_middle, Hc.
  - intros c' Hc'. simpl.
    apply elem_of_app in Hc' as [Hc'|Hc'].
    + by apply Hw, (subseteq_drop (S k)).
    + by apply list_elem_of_singleton in Hc' as ->.
Qed.

Lemma broadcast_iterates_live_list_witness :
  broadcast_task [] 0 "m" (idle [client_X; client_Y]) 
    = broadcast "m" (idle [client_X; client_Y])
  ∧ (broadcast_task (replicate 1 [] ++ [[OtherConnect client_Z]]) 0 "m"
       (idle [client_X; client_Y])).1 = Return ()
  ∧ wire (broadcast_task (replicate 1 [] ++ [[OtherConnect client_Z]]) 0 "m"
            (idle [client_X; client_Y])).2
    = (wire (idle [client_X; client_Y])
         ++ frames "m" (registry (idle [client_X; client_Y]) ++ [client_Z]))%list.
Proof.
  apply (broadcast_iterates_live_list "m" client_Z 1
           (idle [client_X; client_Y])).
  - intros c _. reflexivity.
  - reflexivity.
  - reflexivity.
  - simpl. lia.
Defined.

(** C7, refuted as stated: X, Y and Z are registered; while the broadcast
    is suspended in its send to X, X's handler disconnects.  The removal
    shifts the list under the iterator: Y, registered from start to end,
    never gets the message, which an iteration over a copy taken at the
    start would have delivered. *)
Lemma broadcast_sees_concurrent_removal :
  let w := idle [client_X; client_Y; client_Z] in
  wire (broadcast_task [[OtherDisconnect client_X]] 0 "m" w).2
  = [(client_X, "m"); (client_Z, "m")]
  ∧ registry (broadcast_task [[OtherDisconnect client_X]] 0 "m" w).2
    = [client_Y; client_Z]
  ∧ wire (broadcast_task [[OtherDisconnect client_X]] 0 "m" w).2
    ≠ wire (broadcast_loop "m" (registry w) w).2.
Proof. repeat split. simpl. discriminate. Qed.

(** ** A whole connection *)

Lemma list_remove_subseteq x l : ∀ l',
  list_remove x l = Some l' → ∀ y, y ∈ l' → y ∈ l.
Proof.
  induction l as [|z l IH]; intros l' Hrm y Hy; [done|].
  simpl in Hrm. destruct (decide (x = z)) as [->|Hne].
  - injection Hrm as <-. by right.
  - destruct (list_remove x l) as [l0|]; [|done]. injection Hrm as <-.
    apply elem_of_cons in Hy as [->|Hy]; [by left|].
    right. by apply (IH l0).
Qed.

Lemma receive_loop_ok websocket client_id ending inbox : ∀ w,
  send_raises (peers w websocket) = None →
  writable w (registry w) →
  receive_loop websocket client_id inbox ending w
  = (Raise ending,
     push_frames (inbox ≫= exchange websocket client_id (registry w)) w).
Proof.
  induction inbox as [|data inbox IH]; intros w Hws Hw.
  - simpl. unfold raise. by rewrite push_frames_nil.
  - cbn [receive_loop]. unfold mbind at 1, IO_bind.
    rewrite on_message_ok by done.
    rewrite IH by done. by rewrite push_frames_app.
Qed.

(** With peers that take every write, a connection that sends [inbox] and
    then closes runs to the end of the handler: each message is echoed,
    and the handler leaves through the [except] branch. *)
Lemma websocket_endpoint_ok websocket client_id inbox w :
  accept_raises (peers w websocket) = None →
  send_raises (peers w websocket) = None →
  writable w (registry w) →
  (websocket_endpoint websocket client_id inbox WebSocketDisconnect w).1
    = Return ()
  ∧ ∀ data, data ∈ inbox →
      (websocket, "You wrote: " +:+ data)
      ∈ wire (websocket_endpoint websocket client_id inbox
                WebSocketDisconnect w).2.
Proof.
  intros Hacc Hsend Hw.
  assert (writable w (registry w ++ [websocket])) as Hw'.
  { intros c [Hc|Hc%list_elem_of_singleton]%elem_of_app; [by apply Hw|].
    by subst. }
  destruct (list_remove_elem_of websocket (registry w ++ [websocket]))
    as [l Hl].
  { apply elem_of_app. right. by apply list_elem_of_singleton. }
  assert (websocket_endpoint websocket client_id inbox WebSocketDisconnect w
          = (Return (),
             push_frames
               (frames ("Client #" +:+ client_id +:+ " left the chat") l)
               (set_connections l
                  (push_frames
                     (inbox ≫= exchange websocket client_id
                                  (registry w ++ [websocket]))
                     (set_connections (registry w ++ [websocket]) w)))))
    as ->.
  { unfold websocket_endpoint, mbind at 1, IO_bind.
    rewrite connect_unfold, Hacc.
    unfold try_except_WebSocketDisconnect.
    rewrite receive_loop_ok by done.
    rewrite (on_disconnect_ok _ _ _ l); [done|done|].
    intros c Hc. simpl. apply Hw'. by apply (list_remove_subseteq _ _ _ Hl). }
  split; [done|]. intros data Hdata. simpl.
  apply elem_of_app. left. apply elem_of_app. right.
  apply list_elem_of_bind. exists data. split; [|done]. by left.
Qed.

(** C9: when [SUPABASE_URL] or [SUPABASE_KEY] is missing or empty, every
    request to a store-backed route fails when it is made, with the 500 of
    [get_supabase_client], before anything reaches the store.  The relay
    does not read the settings: a connection behaves as it does under any
    other configuration, and with peers that take every write it runs to
    its end and echoes each message. *)
Theorem missing_credentials_break_store_routes_only
    environ create_client environ' create_client' r websocket inbox w :
  not_ (environ !! "SUPABASE_URL") || not_ (environ !! "SUPABASE_KEY") = true →
  accept_raises (peers w websocket) = None →
  send_raises (peers w websocket) = None →
  writable w (registry w) →
  serve environ create_client (Http r) w
    = (Raise (HTTPException 500
                (Lit "Supabase credentials not found in environment variables.")),
       w)
  ∧ serve environ create_client (Ws websocket inbox WebSocketDisconnect) w
    = serve environ' create_client' (Ws websocket inbox WebSocketDisconnect) w
  ∧ (serve environ create_client (Ws websocket inbox WebSocketDisconnect) w).1
    = Return None
  ∧ ∀ data, data ∈ inbox →
      (websocket, "You wrote: " +:+ data)
      ∈ wire (serve environ create_client
                (Ws websocket inbox WebSocketDisconnect) w).2.
Proof.
  intros Hmissing Hacc Hsend Hw. split; [|split; [done|]].
  - unfold serve, mbind, IO_bind, api_router, get_supabase_client, getenv.
    by rewrite Hmissing.
  - destruct (websocket_endpoint_ok websocket (path_client_id websocket)
                inbox w Hacc Hsend Hw) as [Hret Hecho].
    unfold serve, mbind, IO_bind.
    destruct (websocket_endpoint _ _ _ _ w) as [[[]|e] w'] eqn:Hrun;
      simpl in Hret; [|done].
    split; [done|]. intros data Hdata. simpl. by apply Hecho.
Qed.

Lemma missing_credentials_break_store_routes_only_witness :
  serve ∅ (λ _ _, Return no_data)
    (Http (GET_sessions_id {| uuid_text := "s1" |})) (idle [client_Y])
    = (Raise (HTTPException 500
                (Lit "Supabase credentials not found in environment variables.")),
       idle [client_Y])
  ∧ serve ∅ (λ _ _, Return no_data)
      (Ws client_X ["hi"] WebSocketDisconnect) (idle [client_Y])
    = serve configured (λ _ _, Return (in_memory sample_db))
        (Ws client_X ["hi"] WebSocketDisconnect) (idle [client_Y])
  ∧ (serve ∅ (λ _ _, Return no_data)
       (Ws client_X ["hi"] WebSocketDisconnect) (idle [client_Y])).1
    = Return None
  ∧ ∀ data, data ∈ ["hi"] →
      (client_X, "You wrote: " +:+ data)
      ∈ wire (serve ∅ (λ _ _, Return no_data)
                (Ws client_X ["hi"] WebSocketDisconnect) (idle [client_Y])).2.
Proof.
  apply (missing_credentials_break_store_routes_only
           ∅ (λ _ _, Return no_data)
           configured (λ _ _, Return (in_memory sample_db))
           (GET_sessions_id {| uuid_text := "s1" |})
           client_X ["hi"] (idle [client_Y])).
  - reflexivity.
  - reflexivity.
  - reflexivity.
  - intros c _. reflexivity.
Defined.

(** With both settings present the same request reaches the store. *)
Example configured_request_reaches_store :
  (serve configured (λ _ _, Return (in_memory sample_db))
     (Http (GET_sessions_id_events {| uuid_text := "s2" |})) (idle [])).1
  = Return (Some (DList [EventRow (event "e2" "s2" 5 "x")])).
Proof. vm_compute. reflexivity. Qed.

(** * Further properties of the store-backed endpoints *)

Lemma create_session_unfold session_data supabase w :
  create_session session_data supabase w =
  (match respond supabase (insert "session_metadata" (SessionRow session_data)) with
   | Return d =>
       match first_row d with
       | Some r => Return (DObject r)
       | None =>
           Raise (HTTPException 500
                    (Interp "Database error: "
                       (HTTPException 500
                          (Lit "Failed to create session in Supabase."))))
       end
   | Raise e => Raise (HTTPException 500 (Interp "Database error: " e))
   end,
   push_request (insert "session_metadata" (SessionRow session_data)) w).
Proof.
  unfold create_session, try_except, execute, mbind, IO_bind.
  destruct (respond supabase _) as [d|e]; [|done].
  by destruct (first_row d).
Qed.

Lemma create_event_unfold event_data supabase w :
  create_event event_data supabase w =
  (match respond supabase (insert "event_log" (EventRow event_data)) with
   | Return d =>
       match first_row d with
       | Some r => Return (DObject r)
       | None =>
           Raise (HTTPException 500
                    (Interp "Database error: "
                       (HTTPException 500
                          (Lit "Failed to create event in Supabase."))))
       end
   | Raise e => Raise (HTTPException 500 (Interp "Database error: " e))
   end,
   push_request (insert "event_log" (EventRow event_data)) w).
Proof.
  unfold create_event, try_except, execute, mbind, IO_bind.
  destruct (respond supabase _) as [d|e]; [|done].
  by destruct (first_row d).
Qed.

Lemma route_endpoint_effects r supabase w :
  store_requests (route_endpoint r supabase w).2
    = (store_requests w ++ [route_query r])%list
  ∧ manager (route_endpoint r supabase w).2 = manager w
  ∧ wire (route_endpoint r supabase w).2 = wire w.
Proof.
  destruct r as [sd|sid|ed|sid]; cbn [route_endpoint route_query].
  - by rewrite create_session_unfold.
  - rewrite get_session_unfold.
    destruct (respond supabase _) as [d|e]; [by destruct (truthy d)|done].
  - by rewrite create_event_unfold.
  - by rewrite get_events_for_session_unfold.
Qed.

(** X1: whatever the store answers, each of the four endpoints sends it
    exactly one query and leaves the relay (registry and wire) alone.  It
    returns only when the store has answered.  Otherwise it raises an
    [HTTPException] with status 500 whose detail is "Database error: "
    followed by the very exception its [except] clause caught: the one the
    store raised, or, when the store did answer, the endpoint's own (404
    "Session not found", 500 "Failed to create ..."). *)
Theorem endpoint_outcome r supabase w :
  store_requests (route_endpoint r supabase w).2
    = (store_requests w ++ [route_query r])%list
  ∧ manager (route_endpoint r supabase w).2 = manager w
  ∧ wire (route_endpoint r supabase w).2 = wire w
  ∧ match (route_endpoint r supabase w).1 with
    | Return _ => ∃ d, respond supabase (route_query r) = Return d
    | Raise e =>
        ∃ caught,
          e = HTTPException 500 (Interp "Database error: " caught)
          ∧ (respond supabase (route_query r) = Raise caught
             ∨ (∃ d, respond supabase (route_query r) = Return d)
               ∧ own_exception r = Some caught)
    end.
Proof.
  destruct r as [sd|sid|ed|sid]; cbn [route_endpoint route_query].
  - rewrite create_session_unfold. repeat split. cbn [fst].
    destruct (respond supabase _) as [d|e]; [|exists e; by split; [|left]].
    destruct (first_row d); [by exists d|].
    eexists. split; [done|]. right. split; [by exists d|done].
  - rewrite get_session_unfold.
    destruct (respond supabase _) as [d|e];
      [destruct (truthy d)|]; repeat split; cbn [fst].
    + by exists d.
    + eexists. split; [done|]. right. split; [by exists d|done].
    + exists e. by split; [|left].
  - rewrite create_event_unfold. repeat split. cbn [fst].
    destruct (respond supabase _) as [d|e]; [|exists e; by split; [|left]].
    destruct (first_row d); [by exists d|].
    eexists. split; [done|]. right. split; [by exists d|done].
  - rewrite get_events_for_session_unfold. repeat split. cbn [fst].
    destruct (respond supabase _) as [d|e]; [|exists e; by split; [|left]].
    destruct (truthy d); by exists d.
Qed.

(** X2: a creation succeeds exactly when the store answers with a
    non-empty list, and then returns the first row of that list.  Any
    other answer ([None], an empty list, a single object) ends in a 500
    that wraps the endpoint's own "Failed to create" exception. *)
Theorem create_returns_first_row session_data event_data supabase w d1 d2 :
  respond supabase (insert "session_metadata" (SessionRow session_data))
    = Return d1 →
  respond supabase (insert "event_log" (EventRow event_data)) = Return d2 →
  (create_session session_data supabase w).1
    = match d1 with
      | DList (r :: _) => Return (DObject r)
      | _ => Raise (HTTPException 500
                      (Interp "Database error: "
                         (HTTPException 500
                            (Lit "Failed to create session in Supabase."))))
      end
  ∧ (create_event event_data supabase w).1
    = match d2 with
      | DList (r :: _) => Return (DObject r)
      | _ => Raise (HTTPException 500
                      (Interp "Database error: "
                         (HTTPException 500
                            (Lit "Failed to create event in Supabase."))))
      end.
Proof.
  intros H1 H2. rewrite create_session_unfold, create_event_unfold, H1, H2.
  split; cbn [fst]; [by destruct d1 as [| |[|]]|by destruct d2 as [| |[|]]].
Qed.

Lemma create_returns_first_row_witness :
  (create_session sample_session (in_memory empty_db) (idle [])).1
    = Return (DObject (SessionRow sample_session))
  ∧ (create_event (event "e1" "s1" 30 "c") no_data (idle [])).1
    = Raise (HTTPException 500
               (Interp "Database error: "
                  (HTTPException 500
                     (Lit "Failed to create event in Supabase.")))).
Proof.
  split.
  - apply (create_returns_first_row sample_session (event "e1" "s1" 30 "c")
             (in_memory empty_db) (idle [])
             (DList [SessionRow sample_session])
             (DList [EventRow (event "e1" "s1" 30 "c")])); reflexivity.
  - apply (create_returns_first_row sample_session (event "e1" "s1" 30 "c")
             no_data (idle []) DNone DNone); reflexivity.
Defined.

(** X3: [get_session] answers 200 exactly when the store hands back data
    that is truthy, and the body is then that data unchanged; in every
    other case the status is 500.  No store answer leads to any other
    status. *)
Theorem get_session_status session_id supabase w :
  match respond supabase (session_query session_id) with
  | Return d =>
      if truthy d
      then (get_session session_id supabase w).1 = Return d
           ∧ response_status HTTP_200_OK
               (get_session session_id supabase w).1 = 200
      else response_status HTTP_200_OK
             (get_session session_id supabase w).1 = 500
  | Raise _ =>
      response_status HTTP_200_OK (get_session session_id supabase w).1 = 500
  end.
Proof.
  rewrite get_session_unfold.
  destruct (respond supabase (session_query session_id)) as [d|e]; [|done].
  by destruct (truthy d).
Qed.

(** ** The dependency and the router *)

Lemma api_router_unfold environ create_client r w :
  api_router environ create_client r w =
  if not_ (environ !! "SUPABASE_URL") || not_ (environ !! "SUPABASE_KEY") then
    (Raise (HTTPException 500
              (Lit "Supabase credentials not found in environment variables.")),
     w)
  else
    match create_client (default "" (environ !! "SUPABASE_URL"))
                        (default "" (environ !! "SUPABASE_KEY")) with
    | Return supabase =>
        match route_endpoint r supabase w with
        | (Return d, w') => (Return d, w')
        | (Raise e, w') =>
            (Raise (HTTPException 500
                      (Interp "Failed to initialize Supabase client: " e)),
             w')
        end
    | Raise e =>
        (Raise (HTTPException 500
                  (Interp "Failed to initialize Supabase client: " e)),
         w)
    end.
Proof.
  unfold api_router, get_supabase_client, getenv.
  destruct (not_ _ || not_ _); [done|].
  unfold try_except. fold (route_endpoint r).
  by destruct (create_client _ _).
Qed.

Lemma not__Some v : v ≠ "" → not_ (Some v) = false.
Proof. intros H. unfold not_. by apply bool_decide_eq_false. Qed.

(** X4: with both settings present, a failure of [create_client] turns
    every store-backed request into a 500 "Failed to initialize Supabase
    client", before any query is made; nothing else changes. *)
Theorem client_creation_failure environ create_client r w url key e :
  environ !! "SUPABASE_URL" = Some url → url ≠ "" →
  environ !! "SUPABASE_KEY" = Some key → key ≠ "" →
  create_client url key = Raise e →
  api_router environ create_client r w
  = (Raise (HTTPException 500
              (Interp "Failed to initialize Supabase client: " e)), w).
Proof.
  intros Hurl Hu Hkey Hk Hfail. rewrite api_router_unfold, Hurl, Hkey.
  rewrite !not__Some by done. simpl. by rewrite Hfail.
Qed.

Lemma client_creation_failure_witness :
  api_router configured (λ _ _, Raise (RuntimeError "Invalid URL"))
    (GET_sessions_id {| uuid_text := "s1" |}) (idle [client_X])
  = (Raise (HTTPException 500
              (Interp "Failed to initialize Supabase client: "
                 (RuntimeError "Invalid URL"))), idle [client_X]).
Proof.
  apply (client_creation_failure configured
           (λ _ _, Raise (RuntimeError "Invalid URL"))
           (GET_sessions_id {| uuid_text := "s1" |}) (idle [client_X])
           "https://example.supabase.co" "secret"); done.
Defined.

(** X5: with both settings present and a client created, a request whose
    endpoint returns is answered exactly as the endpoint answers with that
    client: the dependency adds nothing to a successful request. *)
Theorem api_router_passes_result
    environ create_client r w url key supabase d :
  environ !! "SUPABASE_URL" = Some url → url ≠ "" →
  environ !! "SUPABASE_KEY" = Some key → key ≠ "" →
  create_client url key = Return supabase →
  (route_endpoint r supabase w).1 = Return d →
  api_router environ create_client r w = route_endpoint r supabase w.
Proof.
  intros Hurl Hu Hkey Hk Hclient Hret. rewrite api_router_unfold, Hurl, Hkey.
  rewrite !not__Some by done. simpl. rewrite Hclient.
  destruct (route_endpoint r supabase w) as [[d'|e] w']; [done|].
  discriminate Hret.
Qed.

Lemma api_router_passes_result_witness :
  api_router configured (λ _ _, Return (in_memory sample_db))
    (GET_sessions_id_events {| uuid_text := "s2" |}) (idle [])
  = route_endpoint (GET_sessions_id_events {| uuid_text := "s2" |})
      (in_memory sample_db) (idle []).
Proof.
  apply (api_router_passes_result configured
           (λ _ _, Return (in_memory sample_db))
           (GET_sessions_id_events {| uuid_text := "s2" |}) (idle [])
           "https://example.supabase.co" "secret" (in_memory sample_db)
           (DList [EventRow (event "e2" "s2" 5 "x")])); done.
Defined.

(** X6: under every configuration and every store, a request to a
    store-backed route leaves the registry and the wire of the relay as
    they were, sends the store at most the one query of its endpoint, and
    fails, if it fails, with status 500 only. *)
Theorem api_router_outcome environ create_client r w :
  manager (api_router environ create_client r w).2 = manager w
  ∧ wire (api_router environ create_client r w).2 = wire w
  ∧ (store_requests (api_router environ create_client r w).2
       = store_requests w
     ∨ store_requests (api_router environ create_client r w).2
       = (store_requests w ++ [route_query r])%list)
  ∧ response_status (route_status r) (api_router environ create_client r w).1
    ∈ [route_status r; 500].
Proof.
  rewrite api_router_unfold.
  destruct (not_ _ || not_ _).
  { repeat split; [by left|]. simpl. apply elem_of_cons. right. by left. }
  destruct (create_client _ _) as [supabase|e].
  - destruct (route_endpoint_effects r supabase w) as (Hreq & Hman & Hwire).
    destruct (route_endpoint r supabase w) as [[d|e] w']; simpl in *;
      (repeat split; [done|done|by right|]).
    + by left.
    + apply elem_of_cons. right. by left.
  - repeat split; [by left|]. simpl. apply elem_of_cons. right. by left.
Qed.

(** ** The events route with the client that is built *)

Lemma get_events_for_session_synchronous store session_id w :
  get_events_for_session session_id (synchronous store) w
  = (Raise (HTTPException 500
              (Interp "Database error: "
                 match store (events_query session_id) with
                 | Return _ => TypeError
                 | Raise e => e
                 end)),
     push_request (events_query session_id) w).
Proof.
  rewrite get_events_for_session_unfold. simpl.
  by destruct (store (events_query session_id)).
Qed.

Lemma events_route_synchronous environ create_client url key store session_id w :
  environ !! "SUPABASE_URL" = Some url → url ≠ "" →
  environ !! "SUPABASE_KEY" = Some key → key ≠ "" →
  create_client url key = Return (synchronous store) →
  response_status HTTP_200_OK
    (api_router environ create_client (GET_sessions_id_events session_id) w).1
  = 500.
Proof.
  intros Hurl Hu Hkey Hk Hclient. rewrite api_router_unfold, Hurl, Hkey.
  rewrite !not__Some by done. simpl. rewrite Hclient.
  cbn [route_endpoint]. by rewrite get_events_for_session_synchronous.
Qed.

(** C8 (as the code behaves): [get_events_for_session] does send the store
    the query for the session's rows of [event_log] ordered by [timestamp]
    ascending, but it never hands rows back.  The client of line 42 comes
    from the synchronous [create_client]; the [await] of line 111 is
    applied to the finished response and raises [TypeError], which the
    [except Exception] of line 115 turns into a 500.  So, whatever events
    the store holds for the session, the endpoint raises "Database
    error: " with that [TypeError] (or with the store's own error), and
    the route answers 500 instead of the sorted events. *)
Theorem events_route_returns_no_rows
    environ create_client url key store session_id w :
  environ !! "SUPABASE_URL" = Some url → url ≠ "" →
  environ !! "SUPABASE_KEY" = Some key → key ≠ "" →
  create_client url key = Return (synchronous store) →
  store_requests (get_events_for_session session_id (synchronous store) w).2
    = (store_requests w
         ++ [order "timestamp"
               (eq_ "session_id" (str session_id) (select "event_log" "*"))])%list
  ∧ (get_events_for_session session_id (synchronous store) w).1
    = Raise (HTTPException 500
               (Interp "Database error: "
                  match store (events_query session_id) with
                  | Return _ => TypeError
                  | Raise e => e
                  end))
  ∧ response_status HTTP_200_OK
      (api_router environ create_client
         (GET_sessions_id_events session_id) w).1 = 500.
Proof.
  intros Hurl Hu Hkey Hk Hclient.
  rewrite get_events_for_session_synchronous.
  split; [done|]. split; [done|].
  by apply (events_route_synchronous _ _ url key store).
Qed.

Lemma events_route_returns_no_rows_witness :
  store_requests
    (get_events_for_session session_A
       (synchronous (respond (in_memory recorded_db))) (idle [])).2
    = (store_requests (idle [])
         ++ [order "timestamp"
               (eq_ "session_id" (str session_A) (select "event_log" "*"))])%list
  ∧ (get_events_for_session session_A
       (synchronous (respond (in_memory recorded_db))) (idle [])).1
    = Raise (HTTPException 500
               (Interp "Database error: "
                  match respond (in_memory recorded_db) (events_query session_A)
                  with
                  | Return _ => TypeError
                  | Raise e => e
                  end))
  ∧ response_status HTTP_200_OK
      (api_router configured
         (λ _ _, Return (synchronous (respond (in_memory recorded_db))))
         (GET_sessions_id_events session_A) (idle [])).1 = 500.
Proof.
  apply (events_route_returns_no_rows configured
           (λ _ _, Return (synchronous (respond (in_memory recorded_db))))
           "https://example.supabase.co" "secret"
           (respond (in_memory recorded_db)) session_A (idle [])); done.
Defined.

(** The store of the example does hold the three events of the session,
    and would hand them over in order; what reaches the caller is the
    [TypeError] of the [await]. *)
Example events_route_recorded_session :
  respond (in_memory recorded_db) (events_query session_A)
  = Return (DList
      [EventRow (event "a3c1e0d4-1111-4a6b-8c2d-000000000002"
                       "6f1c1a52-3b1e-4c8e-9a57-2d7b0c9e4a11" 10 "a");
       EventRow (event "a3c1e0d4-1111-4a6b-8c2d-000000000003"
                       "6f1c1a52-3b1e-4c8e-9a57-2d7b0c9e4a11" 20 "b");
       EventRow (event "a3c1e0d4-1111-4a6b-8c2d-000000000001"
                       "6f1c1a52-3b1e-4c8e-9a57-2d7b0c9e4a11" 30 "c")])
  ∧ (get_events_for_session session_A
       (synchronous (respond (in_memory recorded_db))) (idle [])).1
    = Raise (HTTPException 500 (Interp "Database error: " TypeError)).
Proof. split; vm_compute; reflexivity. Qed.

(** C10 (as the code behaves): for a session without events the store
    answers the query with no rows, and line 114 would return the empty
    list.  It is not reached: the client of line 42 is the synchronous
    one, the [await] of line 111 raises [TypeError] on the store's answer,
    and the endpoint ends in "Database error: " with that [TypeError].
    The route answers 500, not an empty list with a success status. *)
Theorem events_route_empty_session_is_500
    environ create_client url key store session_id w d :
  environ !! "SUPABASE_URL" = Some url → url ≠ "" →
  environ !! "SUPABASE_KEY" = Some key → key ≠ "" →
  create_client url key = Return (synchronous store) →
  store (events_query session_id) = Return d →
  truthy d = false →
  (get_events_for_session session_id (synchronous store) w).1
    = Raise (HTTPException 500 (Interp "Database error: " TypeError))
  ∧ (get_events_for_session session_id (synchronous store) w).1
    ≠ Return (DList [])
  ∧ response_status HTTP_200_OK
      (api_router environ create_client
         (GET_sessions_id_events session_id) w).1 = 500.
Proof.
  intros Hurl Hu Hkey Hk Hclient Hd _.
  rewrite get_events_for_session_synchronous, Hd.
  split; [done|]. split; [done|].
  by apply (events_route_synchronous _ _ url key store).
Qed.

Lemma events_route_empty_session_is_500_witness :
  (get_events_for_session session_B
     (synchronous (respond (in_memory recorded_db))) (idle [])).1
    = Raise (HTTPException 500 (Interp "Database error: " TypeError))
  ∧ (get_events_for_session session_B
       (synchronous (respond (in_memory recorded_db))) (idle [])).1
    ≠ Return (DList [])
  ∧ response_status HTTP_200_OK
      (api_router configured
         (λ _ _, Return (synchronous (respond (in_memory recorded_db))))
         (GET_sessions_id_events session_B) (idle [])).1 = 500.
Proof.
  apply (events_route_empty_session_is_500 configured
           (λ _ _, Return (synchronous (respond (in_memory recorded_db))))
           "https://example.supabase.co" "secret"
           (respond (in_memory recorded_db)) session_B (idle []) (DList []));
    done.
Defined.

(** * Further properties of the connection manager *)

Lemma list_remove_app_fresh x l1 l2 :
  x ∉ l1 → list_remove x (l1 ++ x :: l2) = Some (l1 ++ l2)%list.
Proof.
  induction l1 as [|y l1 IH]; intros Hx; cbn [app list_remove].
  - by rewrite decide_True.
  - apply not_elem_of_cons in Hx as [Hne Hx].
    rewrite decide_False by done. by rewrite IH.
Qed.

Lemma list_remove_split (x : WebSocket) (l : list WebSocket) :
  x ∈ l → ∃ l1 l2, l = (l1 ++ x :: l2)%list ∧ x ∉ l1.
Proof.
  induction l as [|y l IH]; intros Hx; [by apply elem_of_nil in Hx|].
  destruct (decide (x = y)) as [->|Hne].
  - exists [], l. split; [done|apply not_elem_of_nil].
  - apply elem_of_cons in Hx as [?|Hx]; [done|].
    destruct (IH Hx) as (l1 & l2 & -> & Hl1).
    exists (y :: l1), l2. split; [done|].
    apply not_elem_of_cons. by split.
Qed.

Lemma set_connections_registry w : set_connections (registry w) w = w.
Proof. by destruct w as [[l] p wi sr]. Qed.

(** X7: a failed handshake registers nothing.  [connect] raises what
    [accept] raised and changes nothing, and so does the whole handler:
    [connect] runs before the [try], so no message is read, nothing is
    sent, and the [except] branch does not run even when the exception is
    [WebSocketDisconnect]. *)
Theorem handshake_failure websocket client_id inbox ending w e :
  accept_raises (peers w websocket) = Some e →
  connect websocket w = (Raise e, w)
  ∧ websocket_endpoint websocket client_id inbox ending w = (Raise e, w).
Proof.
  intros Hacc. assert (connect websocket w = (Raise e, w)) as Hc.
  { rewrite connect_unfold. by rewrite Hacc. }
  split; [done|]. unfold websocket_endpoint, mbind, IO_bind. by rewrite Hc.
Qed.

Lemma handshake_failure_witness :
  connect client_X (with_peer client_X refusing (idle [client_Y]))
    = (Raise WebSocketDisconnect, with_peer client_X refusing (idle [client_Y]))
  ∧ websocket_endpoint client_X "X" ["hi"] WebSocketDisconnect
      (with_peer client_X refusing (idle [client_Y]))
    = (Raise WebSocketDisconnect,
       with_peer client_X refusing (idle [client_Y])).
Proof.
  apply (handshake_failure client_X "X" ["hi"] WebSocketDisconnect
           (with_peer client_X refusing (idle [client_Y]))
           WebSocketDisconnect).
  reflexivity.
Defined.

(** X8: connecting a socket that is not registered and disconnecting it
    again gives back the world as it was: same registry, in the same
    order, and nothing sent. *)
Theorem connect_disconnect_round_trip websocket w :
  websocket ∉ registry w →
  accept_raises (peers w websocket) = None →
  (connect websocket w).1 = Return ()
  ∧ disconnect websocket (connect websocket w).2 = (Return (), w).
Proof.
  intros Hfresh Hacc. rewrite connect_unfold, Hacc. split; [done|].
  unfold disconnect. cbn [snd]. rewrite registry_set_connections.
  rewrite list_remove_app_fresh by done. rewrite app_nil_r.
  by destruct w as [[l] p wi sr].
Qed.

Lemma connect_disconnect_round_trip_witness :
  (connect client_X (idle [client_Y; client_Z])).1 = Return ()
  ∧ disconnect client_X (connect client_X (idle [client_Y; client_Z])).2
    = (Return (), idle [client_Y; client_Z]).
Proof.
  apply (connect_disconnect_round_trip client_X (idle [client_Y; client_Z])).
  - apply (bool_decide_unpack (client_X ∉ [client_Y; client_Z])).
    vm_compute. exact I.
  - reflexivity.
Defined.

(** X9: [disconnect] removes one entry, the first one equal to the socket,
    and keeps every other entry in place.  A socket that was registered
    twice is therefore still registered after one [disconnect]. *)
Theorem disconnect_first_occurrence websocket w :
  websocket ∈ registry w →
  ∃ l1 l2,
    registry w = (l1 ++ websocket :: l2)%list
    ∧ (websocket ∉ l1)
    ∧ disconnect websocket w = (Return (), set_connections (l1 ++ l2) w).
Proof.
  intros Hin. destruct (list_remove_split _ _ Hin) as (l1 & l2 & Hl & Hl1).
  exists l1, l2. split; [done|]. split; [done|].
  unfold disconnect. by rewrite Hl, list_remove_app_fresh.
Qed.

Lemma disconnect_first_occurrence_witness :
  ∃ l1 l2,
    registry (idle [client_Y; client_X; client_Z; client_X])
      = (l1 ++ client_X :: l2)%list
    ∧ (client_X ∉ l1)
    ∧ disconnect client_X (idle [client_Y; client_X; client_Z; client_X])
      = (Return (),
         set_connections (l1 ++ l2)
           (idle [client_Y; client_X; client_Z; client_X])).
Proof.
  apply (disconnect_first_occurrence client_X
           (idle [client_Y; client_X; client_Z; client_X])).
  simpl. apply elem_of_cons. right. apply elem_of_cons. by left.
Defined.

Lemma broadcast_loop_outcome message l : ∀ w,
  ∃ n, wire (broadcast_loop message l w).2
         = (wire w ++ frames message (take n l))%list
       ∧ writable w (take n l)
       ∧ ((broadcast_loop message l w).1 = Return () ∧ n = length l
          ∨ ∃ c e, l !! n = Some c ∧ send_raises (peers w c) = Some e
                   ∧ (broadcast_loop message l w).1 = Raise e).
Proof.
  induction l as [|c l IH]; intros w.
  - exists 0%nat. simpl. rewrite app_nil_r. split; [done|].
    split; [by intros c Hc%elem_of_nil|by left].
  - rewrite broadcast_loop_cons. unfold send_text.
    destruct (send_raises (peers w c)) as [e|] eqn:Hc.
    + exists 0%nat. simpl. rewrite app_nil_r. split; [done|].
      split; [by intros c' Hc'%elem_of_nil|]. right. by exists c, e.
    + destruct (IH (push_frame c message w)) as (n & Hwire & Hok & Hres).
      exists (S n). rewrite Hwire. simpl. rewrite <- app_assoc.
      split; [done|]. split.
      * intros c' [->|Hc']%elem_of_cons; [done|]. by apply Hok.
      * destruct Hres as [[-> ->]|(c' & e & ? & ? & ->)]; [by left|].
        right. by exists c', e.
Qed.

(** X10: whatever the peers do, [broadcast] changes neither the registry
    nor what was sent to the store, and what it writes is the message to
    the first [n] registered connections, in registry order: either to all
    of them, and it returns, or up to the first connection whose send
    raises, and it raises that exception. *)
Theorem broadcast_outcome message w :
  manager (broadcast message w).2 = manager w
  ∧ store_requests (broadcast message w).2 = store_requests w
  ∧ ∃ n, wire (broadcast message w).2
           = (wire w ++ frames message (take n (registry w)))%list
         ∧ writable w (take n (registry w))
         ∧ ((broadcast message w).1 = Return () ∧ n = length (registry w)
            ∨ ∃ c e, registry w !! n = Some c
                     ∧ send_raises (peers w c) = Some e
                     ∧ (broadcast message w).1 = Raise e).
Proof.
  unfold broadcast.
  destruct (broadcast_loop_frame message (registry w) w) as (-> & _ & ->).
  split; [done|]. split; [done|]. apply broadcast_loop_outcome.
Qed.

(** ** The life of a connection *)

(** X11: a socket that is not yet registered connects, sends [inbox] and
    closes, all peers taking every write.  The handler returns, the
    registry is again what it was before the connection, and the wire has
    gained, in this order: for each message its echo followed by the
    broadcast to everyone registered, the sender included, then the
    departure notice to each remaining connection and not to the one that
    left. *)
Theorem websocket_endpoint_session websocket client_id inbox w :
  websocket ∉ registry w →
  accept_raises (peers w websocket) = None →
  send_raises (peers w websocket) = None →
  writable w (registry w) →
  websocket_endpoint websocket client_id inbox WebSocketDisconnect w
  = (Return (),
     push_frames
       ((inbox ≫= exchange websocket client_id (registry w ++ [websocket]))
          ++ frames (left_the_chat client_id) (registry w)) w).
Proof.
  intros Hfresh Hacc Hsend Hw.
  assert (writable w (registry w ++ [websocket])) as Hw'.
  { intros c [Hc|Hc%list_elem_of_singleton]%elem_of_app; [by apply Hw|].
    by subst. }
  unfold websocket_endpoint, mbind at 1, IO_bind.
  rewrite connect_unfold, Hacc. unfold try_except_WebSocketDisconnect.
  rewrite receive_loop_ok by done.
  rewrite (on_disconnect_ok _ _ _ (registry w)).
  - f_equal. rewrite registry_set_connections.
    destruct w as [[l] p wi sr]. unfold push_frames, set_connections.
    simpl. by rewrite <- app_assoc.
  - rewrite registry_push_frames, !registry_set_connections.
    rewrite list_remove_app_fresh by done. by rewrite app_nil_r.
  - done.
Qed.

Lemma websocket_endpoint_session_witness :
  websocket_endpoint client_X "X" ["hi"; "bye"] WebSocketDisconnect
    (idle [client_Y])
  = (Return (),
     push_frames
       ((["hi"; "bye"] ≫= exchange client_X "X"
                            (registry (idle [client_Y]) ++ [client_X]))
          ++ frames (left_the_chat "X") (registry (idle [client_Y])))
       (idle [client_Y])).
Proof.
  apply (websocket_endpoint_session client_X "X" ["hi"; "bye"]
           (idle [client_Y])).
  - apply (bool_decide_unpack (client_X ∉ [client_Y])). vm_compute. exact I.
  - reflexivity.
  - reflexivity.
  - intros c _. reflexivity.
Defined.

(** X12: only [WebSocketDisconnect] is caught.  When reading ends with any
    other exception, the handler lets it through without running the
    [except] branch: the socket stays in the registry and no departure
    notice is sent. *)
Theorem websocket_endpoint_other_exception
    websocket client_id inbox ending w :
  ending ≠ WebSocketDisconnect →
  accept_raises (peers w websocket) = None →
  send_raises (peers w websocket) = None →
  writable w (registry w) →
  websocket_endpoint websocket client_id inbox ending w
  = (Raise ending,
     push_frames
       (inbox ≫= exchange websocket client_id (registry w ++ [websocket]))
       (set_connections (registry w ++ [websocket]) w)).
Proof.
  intros Hending Hacc Hsend Hw.
  assert (writable w (registry w ++ [websocket])) as Hw'.
  { intros c [Hc|Hc%list_elem_of_singleton]%elem_of_app; [by apply Hw|].
    by subst. }
  unfold websocket_endpoint, mbind at 1, IO_bind.
  rewrite connect_unfold, Hacc. unfold try_except_WebSocketDisconnect.
  rewrite receive_loop_ok by done.
  by destruct ending.
Qed.

Lemma websocket_endpoint_other_exception_witness :
  websocket_endpoint client_X "X" ["hi"] (RuntimeError "not text")
    (idle [client_Y])
  = (Raise (RuntimeError "not text"),
     push_frames
       (["hi"] ≫= exchange client_X "X"
                    (registry (idle [client_Y]) ++ [client_X]))
       (set_connections (registry (idle [client_Y]) ++ [client_X])
          (idle [client_Y]))).
Proof.
  apply (websocket_endpoint_other_exception client_X "X" ["hi"]
           (RuntimeError "not text") (idle [client_Y])).
  - discriminate.
  - reflexivity.
  - reflexivity.
  - intros c _. reflexivity.
Defined.

(** ** A dead peer in the registry *)

Lemma receive_loop_dead_peer websocket client_id data rest ending l1 c l2 e w :
  registry w = (l1 ++ c :: l2)%list →
  send_raises (peers w websocket) = None →
  writable w l1 →
  send_raises (peers w c) = Some e →
  receive_loop websocket client_id (data :: rest) ending w
  = (Raise e,
     push_frames
       ((websocket, "You wrote: " +:+ data)
          :: frames ("Client #" +:+ client_id +:+ " says: " +:+ data) l1) w).
Proof.
  intros Hreg Hsend Hl1 Hc. cbn [receive_loop].
  unfold mbind at 1, IO_bind.
  unfold on_message, send_personal_message, mbind, IO_bind.
  rewrite send_text_ok by done. unfold broadcast.
  rewrite registry_push_frame, Hreg.
  rewrite (broadcast_loop_fail _ _ _ _ e) by done.
  by rewrite push_frames_cons.
Qed.

Lemma broadcast_fail message l1 c l2 e w :
  registry w = (l1 ++ c :: l2)%list →
  writable w l1 →
  send_raises (peers w c) = Some e →
  broadcast message w = (Raise e, push_frames (frames message l1) w).
Proof.
  intros Hreg Hl1 Hc. unfold broadcast. rewrite Hreg.
  by apply broadcast_loop_fail.
Qed.

(** X13: a registered peer whose socket answers a send with
    [WebSocketDisconnect] takes the next sender down with it.  A healthy
    client that connects and sends a message gets its echo; the broadcast
    reaches the connections registered before the dead one and raises
    there; the sender's own [except] branch runs and removes the sender,
    not the dead peer; the departure notice stops at the dead peer again
    and its exception leaves the handler.  The rest of the inbox is never
    read and the dead peer is still registered. *)
Theorem dead_peer_ends_sender
    websocket client_id data rest ending l1 c l2 w :
  registry w = (l1 ++ c :: l2)%list →
  websocket ∉ registry w →
  accept_raises (peers w websocket) = None →
  send_raises (peers w websocket) = None →
  writable w l1 →
  send_raises (peers w c) = Some WebSocketDisconnect →
  (websocket_endpoint websocket client_id (data :: rest) ending w).1
    = Raise WebSocketDisconnect
  ∧ registry
      (websocket_endpoint websocket client_id (data :: rest) ending w).2
    = registry w
  ∧ wire (websocket_endpoint websocket client_id (data :: rest) ending w).2
    = (wire w
         ++ (websocket, "You wrote: " +:+ data)
         :: frames ("Client #" +:+ client_id +:+ " says: " +:+ data) l1
         ++ frames (left_the_chat client_id) l1)%list.
Proof.
  intros Hreg Hfresh Hacc Hsend Hl1 Hc.
  assert (websocket_endpoint websocket client_id (data :: rest) ending w
          = (Raise WebSocketDisconnect,
             push_frames (frames (left_the_chat client_id) l1)
               (set_connections (registry w)
                  (push_frames
                     ((websocket, "You wrote: " +:+ data)
                        :: frames ("Client #" +:+ client_id +:+ " says: "
                                     +:+ data) l1)
                     (set_connections (registry w ++ [websocket]) w)))))
    as ->.
  { unfold websocket_endpoint, mbind at 1, IO_bind.
    rewrite connect_unfold, Hacc. unfold try_except_WebSocketDisconnect.
    rewrite (receive_loop_dead_peer _ _ _ _ _ l1 c (l2 ++ [websocket])
               WebSocketDisconnect);
      [|by rewrite registry_set_connections, Hreg, <- app_assoc|done..].
    unfold on_disconnect, mbind, IO_bind, disconnect.
    rewrite registry_push_frames, registry_set_connections.
    rewrite list_remove_app_fresh by done. rewrite app_nil_r.
    by rewrite (broadcast_fail _ l1 c l2 WebSocketDisconnect). }
  split; [done|]. split; [done|].
  simpl. by rewrite <- !app_assoc.
Qed.

Lemma dead_peer_ends_sender_witness :
  let w := with_peer client_Z (gone WebSocketDisconnect)
             (idle [client_Y; client_Z]) in
  (websocket_endpoint client_X "X" ["hi"; "bye"] WebSocketDisconnect w).1
    = Raise WebSocketDisconnect
  ∧ registry
      (websocket_endpoint client_X "X" ["hi"; "bye"] WebSocketDisconnect w).2
    = registry w
  ∧ wire (websocket_endpoint client_X "X" ["hi"; "bye"] WebSocketDisconnect w).2
    = (wire w
         ++ (client_X, "You wrote: " +:+ "hi")
         :: frames ("Client #" +:+ "X" +:+ " says: " +:+ "hi") [client_Y]
         ++ frames (left_the_chat "X") [client_Y])%list.
Proof.
  intros w.
  apply (dead_peer_ends_sender client_X "X" "hi" ["bye"] WebSocketDisconnect
           [client_Y] client_Z [] w).
  - reflexivity.
  - apply (bool_decide_unpack (client_X ∉ [client_Y; client_Z])).
    vm_compute. exact I.
  - reflexivity.
  - reflexivity.
  - intros c Hc. apply list_elem_of_singleton in Hc as ->. reflexivity.
  - reflexivity.
Defined.

(** X14: when the dead peer's send raises anything but
    [WebSocketDisconnect], the sender's handler ends with that exception
    and without its [except] branch: the sender, though healthy, stays in
    the registry, next to the dead peer, and no departure notice is
    sent. *)
Theorem dead_peer_strands_sender
    websocket client_id data rest ending l1 c l2 e w :
  registry w = (l1 ++ c :: l2)%list →
  e ≠ WebSocketDisconnect →
  accept_raises (peers w websocket) = None →
  send_raises (peers w websocket) = None →
  writable w l1 →
  send_raises (peers w c) = Some e →
  (websocket_endpoint websocket client_id (data :: rest) ending w).1 = Raise e
  ∧ registry
      (websocket_endpoint websocket client_id (data :: rest) ending w).2
    = (registry w ++ [websocket])%list
  ∧ wire (websocket_endpoint websocket client_id (data :: rest) ending w).2
    = (wire w
         ++ (websocket, "You wrote: " +:+ data)
         :: frames ("Client #" +:+ client_id +:+ " says: " +:+ data) l1)%list.
Proof.
  intros Hreg He Hacc Hsend Hl1 Hc.
  assert (websocket_endpoint websocket client_id (data :: rest) ending w
          = (Raise e,
             push_frames
               ((websocket, "You wrote: " +:+ data)
                  :: frames ("Client #" +:+ client_id +:+ " says: "
                               +:+ data) l1)
               (set_connections (registry w ++ [websocket]) w)))
    as ->.
  { unfold websocket_endpoint, mbind at 1, IO_bind.
    rewrite connect_unfold, Hacc. unfold try_except_WebSocketDisconnect.
    rewrite (receive_loop_dead_peer _ _ _ _ _ l1 c (l2 ++ [websocket]) e);
      [|by rewrite registry_set_connections, Hreg, <- app_assoc|done..].
    by destruct e. }
  done.
Qed.

Lemma dead_peer_strands_sender_witness :
  let w := with_peer client_Z (gone closed_socket)
             (idle [client_Y; client_Z]) in
  (websocket_endpoint client_X "X" ["hi"; "bye"] WebSocketDisconnect w).1
    = Raise closed_socket
  ∧ registry
      (websocket_endpoint client_X "X" ["hi"; "bye"] WebSocketDisconnect w).2
    = (registry w ++ [client_X])%list
  ∧ wire (websocket_endpoint client_X "X" ["hi"; "bye"] WebSocketDisconnect w).2
    = (wire w
         ++ (client_X, "You wrote: " +:+ "hi")
         :: frames ("Client #" +:+ "X" +:+ " says: " +:+ "hi") [client_Y])%list.
Proof.
  intros w.
  apply (dead_peer_strands_sender client_X "X" "hi" ["bye"]
           WebSocketDisconnect [client_Y] client_Z [] closed_socket w).
  - reflexivity.
  - discriminate.
  - reflexivity.
  - reflexivity.
  - intros c Hc. apply list_elem_of_singleton in Hc as ->. reflexivity.
  - reflexivity.
Defined.

(** ** A removal during a broadcast *)

Lemma list_remove_app_l (x : WebSocket) (a b : list WebSocket) :
  x ∈ a →
  ∃ a', list_remove x (a ++ b) = Some (a' ++ b)%list
        ∧ length a = S (length a').
Proof.
  intros Hx. destruct (list_remove_split _ _ Hx) as (a1 & a2 & -> & Ha1).
  exists (a1 ++ a2)%list. split.
  - rewrite <- !app_assoc. cbn [app]. by apply list_remove_app_fresh.
  - rewrite !length_app. simpl. lia.
Qed.

(** X15: the loop of [broadcast] is thrown off by any removal among the
    connections it has already visited.  Let the registry be [pre], [x],
    [d], [post]; while the broadcast is suspended in its send to [x], a
    handler disconnects one of the connections of [pre] or [x] itself.
    The entries shift down by one under the position of the loop, which
    goes on with [post]: [d] is passed over, although nobody removed
    it. *)
Theorem broadcast_task_skips_after_removal message pre x d post c w :
  registry w = (pre ++ x :: d :: post)%list →
  c ∈ (pre ++ [x])%list →
  writable w (registry w) →
  (broadcast_task (replicate (length pre) [] ++ [[OtherDisconnect c]]) 0
     message w).1 = Return ()
  ∧ wire (broadcast_task (replicate (length pre) [] ++ [[OtherDisconnect c]])
            0 message w).2
    = (wire w ++ frames message (pre ++ x :: post))%list.
Proof.
  intros Hreg Hc Hw.
  assert (length (registry w) = length pre + S (S (length post)))%nat as Hlen.
  { rewrite Hreg, length_app. simpl. lia. }
  assert (take (length pre) (registry w) = pre) as Htake
    by (rewrite Hreg; apply take_app_length).
  rewrite broadcast_task_quiet by (done || lia).
  cbn [plus]. rewrite drop_0, Htake.
  rewrite (broadcast_task_step _ _ _ _ _ x);
    [|by rewrite registry_push_frames, Hreg, list_lookup_middle
     |apply Hw; rewrite Hreg; apply elem_of_app; right; by left].
  cbn [foldl interfere]. unfold disconnect.
  rewrite registry_push_frame, registry_push_frames, Hreg.
  destruct (list_remove_app_l c (pre ++ [x]) (d :: post) Hc)
    as (a' & Ha' & Hlen').
  rewrite <- app_assoc in Ha'. cbn [app] in Ha'. rewrite Ha'. cbn [snd].
  rewrite broadcast_task_nil, registry_set_connections.
  rewrite length_app in Hlen'. simpl in Hlen'.
  replace (S (length pre)) with (length (a' ++ [d])%list)
    by (rewrite length_app; simpl; lia).
  replace (a' ++ d :: post)%list with ((a' ++ [d]) ++ post)%list
    by (by rewrite <- app_assoc).
  rewrite drop_app_length.
  rewrite broadcast_loop_ok.
  - split; [done|]. simpl. rewrite <- !app_assoc. f_equal.
    unfold frames. by rewrite fmap_app.
  - intros c' Hc'. simpl. apply Hw. rewrite Hreg.
    apply elem_of_app. right. by do 2 right.
Qed.

Lemma broadcast_task_skips_after_removal_witness :
  (broadcast_task
     (replicate (length [client_X]) [] ++ [[OtherDisconnect client_X]]) 0 "m"
     (idle [client_X; client_Y; client_Z; client_X'])).1 = Return ()
  ∧ wire (broadcast_task
            (replicate (length [client_X]) [] ++ [[OtherDisconnect client_X]])
            0 "m" (idle [client_X; client_Y; client_Z; client_X'])).2
    = (wire (idle [client_X; client_Y; client_Z; client_X'])
         ++ frames "m" ([client_X] ++ client_Y :: [client_X']))%list.
Proof.
  apply (broadcast_task_skips_after_removal "m" [client_X] client_Y client_Z
           [client_X'] client_X
           (idle [client_X; client_Y; client_Z; client_X'])).
  - reflexivity.
  - apply elem_of_cons. by left.
  - intros c _. reflexivity.
Defined.

(** ** The relay and the store *)

Lemma relayed_refl w : relayed w w.
Proof. repeat split. exists []. by rewrite app_nil_r. Qed.

Lemma relayed_trans w1 w2 w3 : relayed w1 w2 → relayed w2 w3 → relayed w1 w3.
Proof.
  intros (Hp1 & Hs1 & fs1 & Hw1) (Hp2 & Hs2 & fs2 & Hw2).
  split; [congruence|]. split; [congruence|].
  exists (fs1 ++ fs2)%list. by rewrite Hw2, Hw1, app_assoc.
Qed.

Lemma relays_bind {A B} (m : IO A) (k : A → IO B) :
  relays m → (∀ a, relays (k a)) → relays (m ≫= k).
Proof.
  intros Hm Hk w. unfold mbind, IO_bind. specialize (Hm w).
  destruct (m w) as [[a|e] w']; [|done].
  eapply relayed_trans; [exact Hm|apply Hk].
Qed.

Lemma relays_send_text ws msg : relays (send_text ws msg).
Proof.
  intros w. unfold send_text.
  destruct (send_raises (peers w ws)); [apply relayed_refl|].
  repeat split. by eexists.
Qed.

Lemma relays_broadcast msg : relays (broadcast msg).
Proof.
  intros w. unfold broadcast. generalize (registry w) as l. intros l.
  revert w. induction l as [|c l IH]; intros w; [apply relayed_refl|].
  apply (relays_bind (send_text c msg) (λ _, broadcast_loop msg l));
    [apply relays_send_text|by intros _].
Qed.

Lemma relays_connect ws : relays (connect ws).
Proof.
  intros w. rewrite connect_unfold.
  destruct (accept_raises (peers w ws)); [apply relayed_refl|].
  repeat split. exists []. simpl. by rewrite app_nil_r.
Qed.

Lemma relays_disconnect ws : relays (disconnect ws).
Proof.
  intros w. unfold disconnect.
  destruct (list_remove ws (registry w)); [|apply relayed_refl].
  repeat split. exists []. simpl. by rewrite app_nil_r.
Qed.

Lemma relays_receive_loop ws client_id inbox ending :
  relays (receive_loop ws client_id inbox ending).
Proof.
  induction inbox as [|data inbox IH]; [intros w; apply relayed_refl|].
  cbn [receive_loop]. apply relays_bind; [|by intros _].
  apply relays_bind; [apply relays_send_text|intros _; apply relays_broadcast].
Qed.

(** X16: the relay never talks to the store and never changes how a peer
    behaves.  Whatever is received, whoever fails and however the handler
    ends, a run of [websocket_endpoint] leaves the list of requests sent
    to the store as it was, and frames already on the wire stay there:
    the handler only adds frames after them. *)
Theorem websocket_endpoint_relays websocket client_id inbox ending w :
  peers (websocket_endpoint websocket client_id inbox ending w).2 = peers w
  ∧ store_requests (websocket_endpoint websocket client_id inbox ending w).2
    = store_requests w
  ∧ ∃ fs,
      wire (websocket_endpoint websocket client_id inbox ending w).2
      = (wire w ++ fs)%list.
Proof.
  revert w. change (relays (websocket_endpoint websocket client_id inbox ending)).
  unfold websocket_endpoint. apply relays_bind; [apply relays_connect|].
  intros _ w. unfold try_except_WebSocketDisconnect.
  pose proof (relays_receive_loop websocket client_id inbox ending w) as Hloop.
  destruct (receive_loop websocket client_id inbox ending w) as [[[]|e] w'];
    [done|].
  destruct e; try done.
  eapply relayed_trans; [exact Hloop|].
  apply (relays_bind (disconnect websocket) (λ _, broadcast _));
    [apply relays_disconnect|intros _; apply relays_broadcast].
Qed.
